(** * SmartHouseAnalytics: the query layer of [persistence.py]

    The five analytics operations of [SmartHouseAnalytics] each send one
    SELECT statement through the shared cursor of [SmartHousePersistence]
    and post-process the rows in Python.  This development embeds

    - the stored tables [rooms], [devices], [measurements] as lists of rows,
    - the five SELECT statements as list programs (join, WHERE, GROUP BY,
      HAVING, aggregates, ORDER BY / LIMIT) over those tables,
    - the cursor protocol ([execute], [fetchone], [fetchall]) as a state and
      exception monad over the store,
    - the Python post-processing of each operation, written in that monad.

    Measurement values are IEEE binary64 numbers ([float]); the aggregates
    [min], [max] and [avg] are computed on them as the engine does.  The
    engine's reader of stored time texts is a parameter of the development
    ([parse_time]); everything is proved for an arbitrary reader. *)

From Stdlib Require Import Floats ZArith Lia Ascii String DecimalString DecimalNat.
From stdpp Require Import gmap strings list sorting.

Local Open Scope string_scope.

(** ** Python values, exceptions and the cursor monad *)

(** The values a DB-API row can hold. *)
Inductive pyval : Type :=
| PNone
| PInt (z : Z)
| PFloat (f : float)
| PStr (s : string).

(** A row as the cursor hands it out: a tuple of Python values. *)
Definition row : Type := list pyval.

Inductive exn : Type := TypeError | ValueError | IndexError | OverflowError | OperationalError.

Inductive outcome (A : Type) : Type :=
| Returns (a : A)
| Raises (e : exn).
Arguments Returns {A} a.
Arguments Raises {A} e.

(** ** Stored tables *)

(** [rooms(id, name)] *)
Record Room : Type := { r_id : Z; r_name : string }.

(** [devices(id, type, room)]; [room] is NULL for a device that is not placed. *)
Record DeviceRow : Type := { d_id : Z; d_type : string; d_room : option Z }.

(** [measurements(device, value, time_stamp)] *)
Record Measurement : Type := { m_device : Z; m_value : float; m_time_stamp : string }.

Record database : Type := {
  rooms : list Room;
  devices : list DeviceRow;
  measurements : list Measurement
}.

(** The store: the tables behind the connection and the rows pending on the
    one cursor all operations share. *)
Record SmartHousePersistence : Type := {
  tables : database;
  cursor : list row
}.

(** Modelled from the spec: the [Device] class is imported from the
    [devices] module, which [persistence.py] does not contain; the data
    model gives a device an identity, a type tag, an owning room and the
    handle [db_id] that correlates it with measurement rows. *)
Record Device : Type := {
  device_id : string;
  device_type : string;
  device_room : option string;
  db_id : Z
}.

(** State and exception monad of the Python methods. *)
Definition M (A : Type) : Type := SmartHousePersistence -> outcome A * SmartHousePersistence.

Definition ret {A : Type} (a : A) : M A := fun p => (Returns a, p).

Definition bind {A B : Type} (m : M A) (k : A -> M B) : M B := fun p =>
  match m p with
  | (Returns a, p') => k a p'
  | (Raises e, p') => (Raises e, p')
  end.

Declare Scope py_scope.
Delimit Scope py_scope with py.
Notation "x <- m ;; k" := (bind m (fun x => k))
  (at level 100, m at next level, right associativity) : py_scope.
Notation "m ;; k" := (bind m (fun _ => k))
  (at level 100, right associativity) : py_scope.

(** A Python list comprehension [[f x for x in l]] whose body may raise. *)
Fixpoint comprehension {A B : Type} (f : A -> outcome B) (l : list A) : outcome (list B) :=
  match l with
  | [] => Returns []
  | x :: l' =>
      match f x with
      | Raises e => Raises e
      | Returns y =>
          match comprehension f l' with
          | Raises e => Raises e
          | Returns ys => Returns (y :: ys)
          end
      end
  end.

Definition lift {A : Type} (o : outcome A) : M A := fun p => (o, p).

(** [t[i]] on a tuple. *)
Definition item (t : row) (i : nat) : outcome pyval :=
  match t !! i with
  | Some v => Returns v
  | None => Raises IndexError
  end.

(** ** Decimal texts *)

Definition digits (n : nat) : string := NilEmpty.string_of_uint (Nat.to_uint n).

Fixpoint zeros (k : nat) : string :=
  match k with
  | O => ""
  | S k' => String "0"%char (zeros k')
  end.

(** ["%0wd"]: decimal, padded with zeros on the left to width [w]. *)
Definition zfill (w n : nat) : string :=
  zeros (w - String.length (digits n)) ++ digits n.

(** Truncation of a binary64 number towards zero, as [int(x)] does. *)
Definition float_trunc (f : float) : outcome Z :=
  match Prim2SF f with
  | S754_zero _ => Returns 0%Z
  | S754_infinity _ => Raises OverflowError
  | S754_nan => Raises ValueError
  | S754_finite s m e =>
      let a := if (0 <=? e)%Z then (Z.pos m * 2 ^ e)%Z else (Z.pos m / 2 ^ (- e))%Z in
      Returns (if s then (- a)%Z else a)
  end.

(** Python's [int(v)] on the values a row can hold.  Of the texts [int]
    accepts, the plain ASCII digit strings are covered (what
    [STRFTIME('%H', ...)] yields); any other text counts as a ValueError. *)
Definition py_int (v : pyval) : outcome Z :=
  match v with
  | PNone => Raises TypeError
  | PInt z => Returns z
  | PFloat f => float_trunc f
  | PStr s =>
      match NilEmpty.uint_of_string s with
      | Some Decimal.Nil | None => Raises ValueError
      | Some d => Returns (Z.of_nat (Nat.of_uint d))
      end
  end.

(** ** Python [date] and [datetime] arguments and their [str()] *)

Record date : Type := { year : nat; month : nat; day : nat }.

(** A naive [datetime] (no tzinfo). *)
Record datetime : Type := {
  on_date : date;
  hour : nat;
  minute : nat;
  second : nat;
  microsecond : nat
}.

Definition str_date (d : date) : string :=
  zfill 4 (year d) ++ "-" ++ zfill 2 (month d) ++ "-" ++ zfill 2 (day d).

Definition str_datetime (t : datetime) : string :=
  str_date (on_date t) ++ " " ++ zfill 2 (hour t) ++ ":" ++ zfill 2 (minute t)
    ++ ":" ++ zfill 2 (second t)
    ++ (if (microsecond t =? 0)%nat then "" else "." ++ zfill 6 (microsecond t)).

(** ** Time values of the SQL engine *)

(** What the engine's date functions read out of a time text: the calendar
    fields they print.  [DATETIME] prints all six as
    [YYYY-MM-DD HH:MM:SS], [DATE] the first three, [STRFTIME('%H', _)] the
    hour, each zero padded to a fixed width.  Seconds are printed whole: a
    fraction of a second in the text is not among the fields. *)
Record timeval : Type := {
  tv_year : nat; tv_month : nat; tv_day : nat;
  tv_hour : nat; tv_minute : nat; tv_second : nat
}.

Definition datetime_fields (t : timeval) : list nat :=
  [tv_year t; tv_month t; tv_day t; tv_hour t; tv_minute t; tv_second t].

Definition date_fields (t : timeval) : list nat :=
  [tv_year t; tv_month t; tv_day t].

(** Comparison of two fixed-width zero-padded renderings, field by field. *)
Fixpoint lex_compare (a b : list nat) : comparison :=
  match a, b with
  | [], [] => Eq
  | [], _ :: _ => Lt
  | _ :: _, [] => Gt
  | x :: a', y :: b' =>
      match (x ?= y)%nat with
      | Eq => lex_compare a' b'
      | c => c
      end
  end.

(** Order of two SQL values that are NULL ([None]) or a rendering: NULL
    sorts before every text. *)
Definition sql_compare (a b : option (list nat)) : comparison :=
  match a, b with
  | None, None => Eq
  | None, Some _ => Lt
  | Some _, None => Gt
  | Some x, Some y => lex_compare x y
  end.

(** [a <= b] in a WHERE clause: NULL operands make the test not true. *)
Definition sql_le (a b : option (list nat)) : bool :=
  match a, b with
  | Some x, Some y => match lex_compare x y with Gt => false | _ => true end
  | _, _ => false
  end.

(** [a = b] in a WHERE clause. *)
Definition sql_eq (a b : option (list nat)) : bool :=
  match a, b with
  | Some x, Some y => match lex_compare x y with Eq => true | _ => false end
  | _, _ => false
  end.

(** [x BETWEEN a AND b] *)
Definition sql_between (x a b : option (list nat)) : bool :=
  sql_le a x && sql_le x b.

(** ** Aggregates over REAL values *)

(** [min()] and [max()] keep the best value seen and replace it only by a
    strictly better one. *)
Definition min_step (best x : float) : float := if (x <? best)%float then x else best.
Definition max_step (best x : float) : float := if (best <? x)%float then x else best.

Definition sql_min (l : list float) : option float :=
  match l with
  | [] => None
  | x :: l' => Some (fold_left min_step l' x)
  end.

Definition sql_max (l : list float) : option float :=
  match l with
  | [] => None
  | x :: l' => Some (fold_left max_step l' x)
  end.

(** The running sum of [avg()], in binary64, in row order. *)
Definition sql_total (l : list float) : float := fold_left PrimFloat.add l 0%float.

(** [avg()]: NULL over no rows, else total / count; a quotient that is not
    a number is handed out as NULL. *)
Definition sql_avg (l : list float) : option float :=
  match l with
  | [] => None
  | _ :: _ =>
      let q := (sql_total l / PrimFloat.of_uint63 (Uint63.of_Z (Z.of_nat (length l))))%float in
      if is_nan q then None else Some q
  end.

(** [value > threshold] in a WHERE clause; a NULL threshold is not true. *)
Definition sql_gt (x : float) (threshold : option float) : bool :=
  match threshold with
  | Some t => (t <? x)%float
  | None => false
  end.

Definition to_py (o : option float) : pyval :=
  match o with
  | Some f => PFloat f
  | None => PNone
  end.

(** Text an f-string can place between two quote characters of the query
    and have the engine read back as that same text literal: no quote and
    no NUL character. *)
Fixpoint plain_text (s : string) : bool :=
  match s with
  | EmptyString => true
  | String c s' =>
      negb (Ascii.eqb c "'"%char) && negb (Ascii.eqb c "000"%char) && plain_text s'
  end.

(** Order in which GROUP BY hands out its groups: ascending in the key,
    NULL first. *)
Definition key_le (a b : option string) : Prop :=
  match a, b with
  | None, _ => True
  | Some _, None => False
  | Some x, Some y => String.leb x y = true
  end.

#[global] Instance key_le_dec (a b : option string) : Decision (key_le a b).
Proof. destruct a, b; simpl; apply _. Defined.

Definition group_keys (keys : list (option string)) : list (option string) :=
  merge_sort key_le (remove_dups keys).

Definition text_to_py (o : option string) : pyval :=
  match o with
  | Some s => PStr s
  | None => PNone
  end.

(** ORDER BY: insertion sort; rows that tie stay in scan order.  (SQL
    leaves the order of ties open; no statement below depends on it.) *)
Fixpoint insert_row {A : Type} (R : relation A) `{!∀ x y, Decision (R x y)}
    (x : A) (l : list A) : list A :=
  match l with
  | [] => [x]
  | y :: l' => if decide (R x y) then x :: y :: l' else y :: insert_row R x l'
  end.

Definition order_by {A : Type} (R : relation A) `{!∀ x y, Decision (R x y)}
    (l : list A) : list A :=
  foldr (insert_row R) [] l.

(** ** The five SELECT statements *)

(** A row of
    [measurements m INNER JOIN devices d ON m.device = d.id
                    INNER JOIN rooms r ON r.id = d.room]. *)
Record joined : Type := { j_m : Measurement; j_d : DeviceRow; j_r : Room }.

Definition join (db : database) : list joined :=
  m ← measurements db;
  d ← filter (λ d, d_id d = m_device m) (devices db);
  r ← filter (λ r, d_room d = Some (r_id r)) (rooms db);
  [ {| j_m := m; j_d := d; j_r := r |} ].

(** The bare column [r.name] next to [min(value)]: it is read from the row
    that holds the minimum, the first such row of the scan. *)
Definition colder_step (best x : joined) : joined :=
  if (m_value (j_m x) <? m_value (j_m best))%float then x else best.

(** [SELECT r.name, min(value) FROM (join)]: an aggregate without GROUP BY
    yields one row also over no input, then all NULL. *)
Definition select_coldest (db : database) : list row :=
  match join db with
  | [] => [[PNone; PNone]]
  | j :: js =>
      let best := fold_left colder_step js j in
      [[PStr (r_name (j_r best)); PFloat (m_value (j_m best))]]
  end.

(** [... WHERE d.type = 'Temperatursensor' GROUP BY r.name] with
    [min(value), max(value), avg(value)] per group. *)
Definition select_temperatures (db : database) : list row :=
  let rows := filter (λ j, d_type (j_d j) = "Temperatursensor") (join db) in
  (λ key,
     let vs := (λ j, m_value (j_m j)) <$> filter (λ j, Some (r_name (j_r j)) = key) rows in
     [text_to_py key; to_py (sql_min vs); to_py (sql_max vs); to_py (sql_avg vs)])
  <$> group_keys ((λ j, Some (r_name (j_r j))) <$> rows).

(** A row of the catalog [sqlite_schema]: its [type] and [name] columns. *)
Record SchemaRow : Type := { s_type : string; s_name : string }.

(** [SELECT name FROM sqlite_schema WHERE type = 'table'] *)
Definition select_table_names (schema : list SchemaRow) : list row :=
  (λ c, [PStr (s_name c)]) <$> filter (λ c, s_type c = "table") schema.

(** The device whose readings give the comparison average. *)
Definition comparison_device : Z := 21.

Inductive query : Type :=
| most_recent_query (device : Z)
| coldest_query
| timespan_query (device : Z) (from_ts to_ts : datetime)
| temperature_query
| humidity_query (room_name : string) (day : date).

(** ** A reader of ISO time texts and example stores

    [iso_time] reads [YYYY-MM-DD], optionally followed by a blank or [T]
    and [HH:MM:SS] with an optional fraction, as the engine does for these
    forms.  It serves the examples; the theorems hold for any reader. *)

Definition digit_of (c : ascii) : option nat :=
  let n := nat_of_ascii c in
  if (48 <=? n)%nat && (n <=? 57)%nat then Some (n - 48) else None.

Definition two_digits (a b : ascii) : option nat :=
  x ← digit_of a; y ← digit_of b; Some (10 * x + y).

Definition fraction_ok (l : list ascii) : bool :=
  match l with
  | [] => true
  | dot :: ds => Ascii.eqb dot "." && negb (bool_decide (ds = []))
                 && forallb (λ c, bool_decide (is_Some (digit_of c))) ds
  end.

Definition iso_clock (l : list ascii) : option (nat * nat * nat) :=
  match l with
  | [] => Some (0, 0, 0)
  | sep :: h1 :: h2 :: c1 :: m1 :: m2 :: c2 :: s1 :: s2 :: frac =>
      if (Ascii.eqb sep " " || Ascii.eqb sep "T") && Ascii.eqb c1 ":" && Ascii.eqb c2 ":"
         && fraction_ok frac
      then h ← two_digits h1 h2; m ← two_digits m1 m2; s ← two_digits s1 s2;
           if (h <? 24)%nat && (m <? 60)%nat && (s <? 60)%nat then Some (h, m, s) else None
      else None
  | _ => None
  end.

Definition iso_time (s : string) : option timeval :=
  match list_ascii_of_string s with
  | y1 :: y2 :: y3 :: y4 :: d1 :: m1 :: m2 :: d2 :: a :: b :: rest =>
      if Ascii.eqb d1 "-" && Ascii.eqb d2 "-"
      then yh ← two_digits y1 y2; yl ← two_digits y3 y4;
           mo ← two_digits m1 m2; dd ← two_digits a b;
           '(h, m, s) ← iso_clock rest;
           if (1 <=? mo)%nat && (mo <=? 12)%nat && (1 <=? dd)%nat && (dd <=? 31)%nat
           then Some {| tv_year := 100 * yh + yl; tv_month := mo; tv_day := dd;
                        tv_hour := h; tv_minute := m; tv_second := s |}
           else None
      else None
  | _ => None
  end.

(** An engine that rejects every altered statement text. *)
Definition refuse_altered (room_name : string) (day : date) (db : database)
  : outcome (list row) := Raises OperationalError.

Definition kitchen : Room := {| r_id := 1; r_name := "Kitchen" |}.
Definition bathroom : Room := {| r_id := 2; r_name := "Bathroom" |}.

Definition thermometer : DeviceRow :=
  {| d_id := 1; d_type := "Temperatursensor"; d_room := Some 1%Z |}.
Definition hygrometer : DeviceRow :=
  {| d_id := 2; d_type := "Fuktighetssensor"; d_room := Some 2%Z |}.
Definition reference_hygrometer : DeviceRow :=
  {| d_id := 21; d_type := "Fuktighetssensor"; d_room := Some 2%Z |}.
Definition unplaced : DeviceRow :=
  {| d_id := 3; d_type := "Temperatursensor"; d_room := None |}.

Definition store_of (ms : list Measurement) : SmartHousePersistence :=
  {| tables := {| rooms := [kitchen; bathroom];
                  devices := [thermometer; hygrometer; reference_hygrometer; unplaced];
                  measurements := ms |};
     cursor := [] |}.

(** Two temperature rows in the kitchen, the earlier one written with a
    [T]; humidity rows in the bathroom: four in hour 10 and three in hour
    11 above the day's average of device 21, which is 11. *)
Definition house : SmartHousePersistence :=
  store_of
    [ {| m_device := 1; m_value := 22; m_time_stamp := "2024-01-01 10:00:00" |};
      {| m_device := 1; m_value := 18; m_time_stamp := "2024-01-01T09:00:00" |};
      {| m_device := 21; m_value := 10; m_time_stamp := "2024-01-01 08:00:00" |};
      {| m_device := 21; m_value := 12; m_time_stamp := "2024-01-01 08:30:00" |};
      {| m_device := 2; m_value := 70; m_time_stamp := "2024-01-01 11:05:00" |};
      {| m_device := 2; m_value := 60; m_time_stamp := "2024-01-01 10:05:00" |};
      {| m_device := 2; m_value := 61; m_time_stamp := "2024-01-01 10:15:00" |};
      {| m_device := 2; m_value := 71; m_time_stamp := "2024-01-01 11:15:00" |};
      {| m_device := 2; m_value := 62; m_time_stamp := "2024-01-01 10:25:00" |};
      {| m_device := 2; m_value := 72; m_time_stamp := "2024-01-01 11:25:00" |};
      {| m_device := 2; m_value := 63; m_time_stamp := "2024-01-01 10:35:00" |};
      {| m_device := 2; m_value := 9; m_time_stamp := "2024-01-01 11:35:00" |} ].

(** Three temperature rows of one tenth each, and three of seven tenths. *)
Definition tenths : SmartHousePersistence :=
  store_of
    [ {| m_device := 1; m_value := 0x1.999999999999ap-4; m_time_stamp := "2024-01-01 10:00:00" |};
      {| m_device := 1; m_value := 0x1.999999999999ap-4; m_time_stamp := "2024-01-01 11:00:00" |};
      {| m_device := 1; m_value := 0x1.999999999999ap-4; m_time_stamp := "2024-01-01 12:00:00" |} ].

Definition seven_tenths : SmartHousePersistence :=
  store_of
    [ {| m_device := 1; m_value := 0x1.6666666666666p-1; m_time_stamp := "2024-01-01 10:00:00" |};
      {| m_device := 1; m_value := 0x1.6666666666666p-1; m_time_stamp := "2024-01-01 11:00:00" |};
      {| m_device := 1; m_value := 0x1.6666666666666p-1; m_time_stamp := "2024-01-01 12:00:00" |} ].

(** [house] with a row that an earlier call left pending. *)
Definition house_mid_fetch : SmartHousePersistence :=
  {| tables := tables house; cursor := [[PStr "Kitchen"; PFloat 1]] |}.

(** A reading of the device that is in no room, and one of the humidity
    sensor of the bathroom. *)
Definition stray_reading : Measurement :=
  {| m_device := 3; m_value := -40; m_time_stamp := "2024-01-01 07:00:00" |}.

Definition damp_reading : Measurement :=
  {| m_device := 2; m_value := 5; m_time_stamp := "2024-01-01 07:00:00" |}.

Definition house_with (m : Measurement) : SmartHousePersistence :=
  store_of (m :: measurements (tables house)).

Definition first_of_january : date := {| year := 2024; month := 1; day := 1 |}.

Definition at_ten : datetime :=
  {| on_date := first_of_january; hour := 10; minute := 0; second := 0; microsecond := 0 |}.

Definition at_eight : datetime :=
  {| on_date := first_of_january; hour := 8; minute := 0; second := 0; microsecond := 0 |}.

Definition half_past_nine : datetime :=
  {| on_date := first_of_january; hour := 9; minute := 30; second := 0; microsecond := 0 |}.

Definition kitchen_sensor : Device :=
  {| device_id := "a2f8690f"; device_type := "Temperatursensor";
     device_room := Some "Kitchen"; db_id := 1 |}.

Definition kitchen_sensor_copy : Device :=
  {| device_id := "another handle to row 1"; device_type := "Fuktighetssensor";
     device_room := None; db_id := 1 |}.

Section Analytics.

(** The engine's reader of time texts; [None] is the NULL its date
    functions return on a text they do not accept. *)
Variable parse_time : string -> option timeval.

(** What the engine answers to the humidity statement when the room name
    is not [plain_text], so that the f-string yields another statement
    text or none the engine can run.  The text still begins with SELECT
    and [execute] runs one statement only: the answer is rows or an
    exception, the tables stay as they are. *)
Variable altered_text : string -> date -> database -> outcome (list row).

Definition sql_datetime (s : string) : option (list nat) := datetime_fields <$> parse_time s.

Definition sql_date (s : string) : option (list nat) := date_fields <$> parse_time s.

(** [STRFTIME('%H', DATETIME(s))] *)
Definition sql_hours (s : string) : option string :=
  (λ t, zfill 2 (tv_hour t)) <$> parse_time s.

(** [ORDER BY datetime(time_stamp) DESC] *)
Definition later_first (a b : Measurement) : Prop :=
  sql_compare (sql_datetime (m_time_stamp b)) (sql_datetime (m_time_stamp a)) ≠ Gt.

#[local] Instance later_first_dec (a b : Measurement) : Decision (later_first a b).
Proof. unfold later_first. apply _. Defined.

(** [SELECT value FROM measurements WHERE device = {sensor.db_id}
     ORDER BY datetime(time_stamp) DESC limit 1] *)
Definition select_most_recent (db : database) (device : Z) : list row :=
  (λ m, [PFloat (m_value m)])
  <$> take 1 (order_by later_first (filter (λ m, m_device m = device) (measurements db))).

(** [SELECT value FROM measurements m WHERE device = {sensor.db_id}
     AND DATETIME(time_stamp) BETWEEN DATETIME('{from_ts}') AND DATETIME('{to_ts}')] *)
Definition in_timespan (device : Z) (from_ts to_ts : datetime) (m : Measurement) : Prop :=
  m_device m = device ∧
  sql_between (sql_datetime (m_time_stamp m))
              (sql_datetime (str_datetime from_ts)) (sql_datetime (str_datetime to_ts)).

Definition select_timespan (db : database) (device : Z) (from_ts to_ts : datetime) : list row :=
  (λ m, [PFloat (m_value m)]) <$> filter (in_timespan device from_ts to_ts) (measurements db).

(** [DATE(time_stamp) = DATE('{day}')] *)
Definition on_day (day : date) (m : Measurement) : Prop :=
  sql_eq (sql_date (m_time_stamp m)) (sql_date (str_date day)).

(** [(SELECT AVG(value) FROM measurements m
      WHERE m.device = 21 AND DATE(time_stamp) = DATE('{day}'))] *)
Definition select_day_average (db : database) (day : date) : option float :=
  sql_avg (m_value <$> filter (λ m, m_device m = comparison_device ∧ on_day day m) (measurements db)).

(** The WHERE clause of the humidity statement. *)
Definition humid_row (db : database) (room_name : string) (day : date) (j : joined) : Prop :=
  r_name (j_r j) = room_name ∧
  d_type (j_d j) = "Fuktighetssensor" ∧
  on_day day (j_m j) ∧
  sql_gt (m_value (j_m j)) (select_day_average db day).

(** [SELECT STRFTIME('%H', DATETIME(m.time_stamp)) AS hours FROM (join)
     WHERE ... GROUP BY hours HAVING COUNT(m.value) > 3] *)
Definition select_humid_hours (db : database) (room_name : string) (day : date) : list row :=
  let hours := (λ j, sql_hours (m_time_stamp (j_m j))) <$> filter (humid_row db room_name day) (join db) in
  (λ key, [text_to_py key])
  <$> filter (λ key, 3 < length (filter (λ h, h = key) hours)) (group_keys hours).

Definition run_query (db : database) (q : query) : outcome (list row) :=
  match q with
  | most_recent_query device => Returns (select_most_recent db device)
  | coldest_query => Returns (select_coldest db)
  | timespan_query device from_ts to_ts => Returns (select_timespan db device from_ts to_ts)
  | temperature_query => Returns (select_temperatures db)
  | humidity_query room_name day =>
      if plain_text room_name then Returns (select_humid_hours db room_name day)
      else altered_text room_name day db
  end.

(** ** The cursor *)

Definition execute (q : query) : M unit := fun p =>
  match run_query (tables p) q with
  | Returns rows => (Returns tt, {| tables := tables p; cursor := rows |})
  | Raises e => (Raises e, p)
  end.

Definition fetchone : M (option row) := fun p =>
  match cursor p with
  | [] => (Returns None, p)
  | t :: rest => (Returns (Some t), {| tables := tables p; cursor := rest |})
  end.

Definition fetchall : M (list row) := fun p =>
  (Returns (cursor p), {| tables := tables p; cursor := [] |}).

(** ** SmartHouseAnalytics *)

Local Open Scope py_scope.

(** [if result: return result[0] else: return None], for [result] a tuple
    or None. *)
Definition first_or_none (result : option row) : pyval :=
  match result with
  | Some (v :: _) => v
  | Some [] | None => PNone
  end.

Definition get_most_recent_sensor_reading (sensor : Device) : M pyval :=
  execute (most_recent_query (db_id sensor)) ;;
  result <- fetchone ;;
  ret (first_or_none result).

Definition get_coldest_room : M pyval :=
  execute coldest_query ;;
  result <- fetchone ;;
  ret (first_or_none result).

Definition get_sensor_readings_in_timespan (sensor : Device) (from_ts to_ts : datetime)
  : M (list pyval) :=
  execute (timespan_query (db_id sensor) from_ts to_ts) ;;
  results <- fetchall ;;
  lift (comprehension (λ t, item t 0) results).

(** [result[row[0]] = (row[1], row[2], row[3])].  The dictionary of the
    model has text keys, as [r.name] is a text column. *)
Definition set_entry (result : gmap string (pyval * pyval * pyval)) (t : row)
  : outcome (gmap string (pyval * pyval * pyval)) :=
  match t with
  | PStr name :: v1 :: v2 :: v3 :: _ => Returns (<[name := (v1, v2, v3)]> result)
  | [] | [_] | [_; _] | [_; _; _] => Raises IndexError
  | _ => Raises TypeError
  end.

Fixpoint for_rows (rows : list row) (result : gmap string (pyval * pyval * pyval))
  : outcome (gmap string (pyval * pyval * pyval)) :=
  match rows with
  | [] => Returns result
  | t :: rows' =>
      match set_entry result t with
      | Returns result' => for_rows rows' result'
      | Raises e => Raises e
      end
  end.

Definition describe_temperature_in_rooms : M (gmap string (pyval * pyval * pyval)) :=
  execute temperature_query ;;
  rows <- fetchall ;;
  lift (for_rows rows ∅).

Definition int_of_first (t : row) : outcome Z :=
  match item t 0 with
  | Returns v => py_int v
  | Raises e => Raises e
  end.

Definition get_hours_when_humidity_above_average (room_name : string) (day : date)
  : M (list Z) :=
  execute (humidity_query room_name day) ;;
  rows <- fetchall ;;
  lift (comprehension int_of_first rows).

(** ** SmartHousePersistence.check_tables

    The catalog of the database behind the connection is an argument of
    the model.  [result] holds the texts of the Python set; a member that
    is not a text cannot be one of the three names looked up. *)

Definition execute_table_names (schema : list SchemaRow) : M unit := fun p =>
  (Returns tt, {| tables := tables p; cursor := select_table_names schema |}).

Definition add_name (result : gset string) (t : row) : outcome (gset string) :=
  match t with
  | [] => Raises IndexError
  | PStr name :: _ => Returns ({[ name ]} ∪ result)
  | _ :: _ => Returns result
  end.

Fixpoint for_names (rows : list row) (result : gset string) : outcome (gset string) :=
  match rows with
  | [] => Returns result
  | t :: rows' =>
      match add_name result t with
      | Returns result' => for_names rows' result'
      | Raises e => Raises e
      end
  end.

Definition check_tables (schema : list SchemaRow) : M bool :=
  execute_table_names schema ;;
  rows <- fetchall ;;
  result <- lift (for_names rows ∅) ;;
  ret (bool_decide ("rooms" ∈ result) && bool_decide ("devices" ∈ result)
       && bool_decide ("measurements" ∈ result)).

(** ** Vocabulary of the statements *)

(** The measurement rows of one device. *)
Definition readings_of (db : database) (device : Z) : list Measurement :=
  filter (λ m, m_device m = device) (measurements db).

(** [a] is strictly earlier than [b] as a date-time value; a time text the
    engine cannot read counts as earlier than every one it can. *)
Definition earlier (a b : Measurement) : Prop :=
  sql_compare (sql_datetime (m_time_stamp a)) (sql_datetime (m_time_stamp b)) = Lt.


(** [m] is the one latest row of [ms]. *)
Definition latest_of (ms : list Measurement) (m : Measurement) : Prop :=
  m ∈ ms ∧ ∀ m', m' ∈ ms → m' = m ∨ earlier m' m.

(** The values measured by temperature sensors in rooms called [name]. *)
Definition temperature_values (db : database) (name : string) : list float :=
  (λ j, m_value (j_m j))
  <$> filter (λ j, d_type (j_d j) = "Temperatursensor" ∧ r_name (j_r j) = name) (join db).

(** The entry of the summary for a room with these values. *)
Definition summary (vs : list float) : option (pyval * pyval * pyval) :=
  match vs with
  | [] => None
  | _ :: _ => Some (to_py (sql_min vs), to_py (sql_max vs), to_py (sql_avg vs))
  end.

(** No value is a NaN: the engine stores a NaN as NULL, and [value] is
    not NULL. *)
Definition no_nan (l : list float) : Prop := Forall (λ x, is_nan x = false) l.

Definition hour_of (m : Measurement) : option nat := tv_hour <$> parse_time (m_time_stamp m).

(** The rows of hour [h] that the humidity statement counts, for a given
    threshold. *)
Definition qualifying (db : database) (room_name : string) (day : date)
    (threshold : option float) (h : nat) : list joined :=
  filter (λ j, r_name (j_r j) = room_name ∧
               d_type (j_d j) = "Fuktighetssensor" ∧
               on_day day (j_m j) ∧
               sql_gt (m_value (j_m j)) threshold ∧
               hour_of (j_m j) = Some h) (join db).

(** The store with other measurement rows, or with its devices given
    other type tags. *)
Definition with_measurements (db : database) (ms : list Measurement) : database :=
  {| rooms := rooms db; devices := devices db; measurements := ms |}.

Definition retyped (g : DeviceRow → string) (db : database) : database :=
  {| rooms := rooms db;
     devices := (λ d, {| d_id := d_id d; d_type := g d; d_room := d_room d |}) <$> devices db;
     measurements := measurements db |}.

(** A row of the join with its device given the type [g] gives it. *)
Definition relabel (g : DeviceRow → string) (j : joined) : joined :=
  {| j_m := j_m j;
     j_d := {| d_id := d_id (j_d j); d_type := g (j_d j); d_room := d_room (j_d j) |};
     j_r := j_r j |}.

Definition on_tables (db : database) (p : SmartHousePersistence) : SmartHousePersistence :=
  {| tables := db; cursor := cursor p |}.

(** The rows of the join that one measurement row gives. *)
Definition joined_with (db : database) (m : Measurement) : list joined :=
  d ← filter (λ d, d_id d = m_device m) (devices db);
  r ← filter (λ r, d_room d = Some (r_id r)) (rooms db);
  [ {| j_m := m; j_d := d; j_r := r |} ].

(** * Properties *)

(** ** Order of binary64 values *)

Lemma SFcompare_antisym (x y : spec_float) :
  SFcompare y x = CompOpp <$> SFcompare x y.
Proof.
  destruct x as [sx|sx| |sx mx ex], y as [sy|sy| |sy my ey]; simpl;
    repeat match goal with b : bool |- _ => destruct b end; simpl; try reflexivity.
  all: rewrite (Z.compare_antisym ex ey); destruct (ex ?= ey)%Z; simpl; try reflexivity.
  all: rewrite Pos.compare_cont_antisym; simpl; try reflexivity.
  all: destruct (Pos.compare_cont Eq mx my); reflexivity.
Qed.

Lemma SFleb_trans (x y z : spec_float) :
  SFleb x y = true -> SFleb y z = true -> SFleb x z = true.
Proof.
  unfold SFleb.
  destruct x as [sx|sx| |sx mx ex], y as [sy|sy| |sy my ey], z as [sz|sz| |sz mz ez];
    simpl; try discriminate;
    repeat match goal with b : bool |- _ => destruct b end; simpl; try congruence.
  all: change (Pos.compare_cont Eq) with Pos.compare.
  all: destruct (Z.compare_spec ex ey), (Z.compare_spec ey ez), (Z.compare_spec ex ez);
       try lia; try congruence; simpl; try congruence.
  all: destruct (Pos.compare_spec mx my), (Pos.compare_spec my mz), (Pos.compare_spec mx mz);
       simpl; try lia; try congruence.
Qed.

Lemma is_nan_Prim2SF (x : float) : is_nan x = false -> Prim2SF x <> S754_nan.
Proof.
  unfold is_nan. rewrite FloatAxioms.eqb_spec. unfold SFeqb.
  intros H E. rewrite E in H. discriminate.
Qed.

Lemma float_leb_trans (x y z : float) :
  (x <=? y)%float = true -> (y <=? z)%float = true -> (x <=? z)%float = true.
Proof. rewrite !FloatAxioms.leb_spec. apply SFleb_trans. Qed.

Lemma float_leb_refl (x : float) : is_nan x = false -> (x <=? x)%float = true.
Proof.
  unfold is_nan. rewrite FloatAxioms.leb_spec, FloatAxioms.eqb_spec. unfold SFleb, SFeqb.
  destruct (SFcompare _ _) as [[]|]; simpl; congruence.
Qed.

Lemma float_not_ltb_leb (x y : float) :
  is_nan x = false -> is_nan y = false -> (y <? x)%float = false -> (x <=? y)%float = true.
Proof.
  intros Hx%is_nan_Prim2SF Hy%is_nan_Prim2SF.
  rewrite FloatAxioms.ltb_spec, FloatAxioms.leb_spec. unfold SFltb, SFleb.
  rewrite (SFcompare_antisym (Prim2SF x) (Prim2SF y)).
  destruct (Prim2SF x), (Prim2SF y); try congruence; simpl;
    repeat match goal with b : bool |- _ => destruct b end; simpl; try congruence.
  all: destruct (Z.compare _ _); simpl; try congruence.
  all: destruct (Pos.compare_cont _ _ _); simpl; congruence.
Qed.

Lemma float_ltb_leb (x y : float) : (x <? y)%float = true -> (x <=? y)%float = true.
Proof.
  rewrite FloatAxioms.ltb_spec, FloatAxioms.leb_spec. unfold SFltb, SFleb.
  destruct (SFcompare _ _) as [[]|]; congruence.
Qed.

(** ** The aggregates [min] and [max] *)

Lemma min_step_cases (best x : float) :
  is_nan best = false -> is_nan x = false ->
  (min_step best x = best \/ min_step best x = x) /\
  (min_step best x <=? best)%float = true /\ (min_step best x <=? x)%float = true.
Proof.
  intros Hb Hx. unfold min_step. destruct (x <? best)%float eqn:E.
  - split; [by right|]. split; [by apply float_ltb_leb | by apply float_leb_refl].
  - split; [by left|]. split; [by apply float_leb_refl | by apply float_not_ltb_leb].
Qed.

Lemma max_step_cases (best x : float) :
  is_nan best = false -> is_nan x = false ->
  (max_step best x = best \/ max_step best x = x) /\
  (best <=? max_step best x)%float = true /\ (x <=? max_step best x)%float = true.
Proof.
  intros Hb Hx. unfold max_step. destruct (best <? x)%float eqn:E.
  - split; [by right|]. split; [by apply float_ltb_leb | by apply float_leb_refl].
  - split; [by left|]. split; [by apply float_leb_refl | by apply float_not_ltb_leb].
Qed.

Lemma fold_min_step (l : list float) (x : float) :
  is_nan x = false -> no_nan l ->
  let m := fold_left min_step l x in
  m ∈ x :: l /\ is_nan m = false /\ ∀ y, y ∈ x :: l → (m <=? y)%float = true.
Proof.
  revert x. induction l as [|a l IH]; intros x Hx Hl; simpl.
  - split; [apply list_elem_of_here|]. split; [done|]. intros y Hy.
    apply list_elem_of_singleton in Hy as ->. by apply float_leb_refl.
  - apply Forall_cons in Hl as [Ha Hl].
    destruct (min_step_cases x a Hx Ha) as (Hc & Hle1 & Hle2).
    assert (Hn : is_nan (min_step x a) = false) by (destruct Hc as [-> | ->]; done).
    destruct (IH (min_step x a) Hn Hl) as (Hin & Hnan & Hlow).
    assert (Hm : (fold_left min_step l (min_step x a) <=? min_step x a)%float = true)
      by (apply Hlow, list_elem_of_here).
    split; [|split; [done|]].
    + apply elem_of_cons in Hin as [Hin | Hin]; [|by do 2 apply list_elem_of_further].
      rewrite Hin. destruct Hc as [-> | ->];
        [apply list_elem_of_here | apply list_elem_of_further, list_elem_of_here].
    + intros y Hy. rewrite !elem_of_cons in Hy.
      destruct Hy as [-> | [-> | Hy]]; [by eapply float_leb_trans..|].
      apply Hlow. by apply list_elem_of_further.
Qed.

Lemma fold_max_step (l : list float) (x : float) :
  is_nan x = false -> no_nan l ->
  let m := fold_left max_step l x in
  m ∈ x :: l /\ is_nan m = false /\ ∀ y, y ∈ x :: l → (y <=? m)%float = true.
Proof.
  revert x. induction l as [|a l IH]; intros x Hx Hl; simpl.
  - split; [apply list_elem_of_here|]. split; [done|]. intros y Hy.
    apply list_elem_of_singleton in Hy as ->. by apply float_leb_refl.
  - apply Forall_cons in Hl as [Ha Hl].
    destruct (max_step_cases x a Hx Ha) as (Hc & Hle1 & Hle2).
    assert (Hn : is_nan (max_step x a) = false) by (destruct Hc as [-> | ->]; done).
    destruct (IH (max_step x a) Hn Hl) as (Hin & Hnan & Hup).
    assert (Hm : (max_step x a <=? fold_left max_step l (max_step x a))%float = true)
      by (apply Hup, list_elem_of_here).
    split; [|split; [done|]].
    + apply elem_of_cons in Hin as [Hin | Hin]; [|by do 2 apply list_elem_of_further].
      rewrite Hin. destruct Hc as [-> | ->];
        [apply list_elem_of_here | apply list_elem_of_further, list_elem_of_here].
    + intros y Hy. rewrite !elem_of_cons in Hy.
      destruct Hy as [-> | [-> | Hy]]; [by eapply float_leb_trans..|].
      apply Hup. by apply list_elem_of_further.
Qed.

(** ** Order of renderings *)


Lemma lex_compare_eq (a b : list nat) : lex_compare a b = Eq -> a = b.
Proof.
  revert b. induction a as [|x a IH]; intros [|y b]; simpl; try done.
  destruct (Nat.compare_spec x y); try done. intros. subst. f_equal. by apply IH.
Qed.

Lemma lex_compare_antisym (a b : list nat) : lex_compare b a = CompOpp (lex_compare a b).
Proof.
  revert b. induction a as [|x a IH]; intros [|y b]; simpl; try done.
  rewrite (Nat.compare_antisym x y). destruct (x ?= y)%nat; simpl; auto.
Qed.

Lemma lex_compare_trans (a b c : list nat) :
  lex_compare a b ≠ Gt -> lex_compare b c ≠ Gt -> lex_compare a c ≠ Gt.
Proof.
  revert b c. induction a as [|x a IH]; intros [|y b] [|z c]; simpl; try done.
  destruct (Nat.compare_spec x y), (Nat.compare_spec y z), (Nat.compare_spec x z);
    try done; try lia. apply IH.
Qed.


Lemma sql_compare_antisym (a b : option (list nat)) :
  sql_compare b a = CompOpp (sql_compare a b).
Proof. destruct a, b; simpl; try done. apply lex_compare_antisym. Qed.

Lemma sql_compare_trans (a b c : option (list nat)) :
  sql_compare a b ≠ Gt -> sql_compare b c ≠ Gt -> sql_compare a c ≠ Gt.
Proof. destruct a, b, c; simpl; try done. apply lex_compare_trans. Qed.


#[local] Instance later_first_total : Total later_first.
Proof.
  intros a b. unfold later_first.
  rewrite (sql_compare_antisym (sql_datetime (m_time_stamp b))).
  destruct (sql_compare _ _); simpl; auto.
Qed.

#[local] Instance later_first_trans : Transitive later_first.
Proof. intros a b c Hab Hbc. unfold later_first in *. by eapply sql_compare_trans. Qed.






(** ** Decimal texts read back *)

Lemma uint_of_string_zeros (k : nat) (s : string) (d : Decimal.uint) :
  NilEmpty.uint_of_string s = Some d ->
  NilEmpty.uint_of_string (zeros k ++ s) = Some (Nat.iter k Decimal.D0 d).
Proof. intros E. induction k as [|k IH]; simpl; [done|]. by rewrite IH. Qed.

Lemma of_uint_zeros (k : nat) (d : Decimal.uint) :
  Nat.of_uint (Nat.iter k Decimal.D0 d) = Nat.of_uint d.
Proof. induction k as [|k IH]; simpl; [done|]. exact IH. Qed.

Lemma to_uint_not_nil (n : nat) : Nat.to_uint n ≠ Decimal.Nil.
Proof.
  intros E. destruct n as [|n]; [discriminate|].
  pose proof (Unsigned.of_to (S n)) as H. rewrite E in H. discriminate.
Qed.

Lemma py_int_zfill (w n : nat) : py_int (PStr (zfill w n)) = Returns (Z.of_nat n).
Proof.
  unfold py_int, zfill, digits.
  rewrite (uint_of_string_zeros _ _ _ (NilEmpty.usu (Nat.to_uint n))).
  pose proof (of_uint_zeros (w - String.length (NilEmpty.string_of_uint (Nat.to_uint n)))
                (Nat.to_uint n)) as Hv.
  rewrite Unsigned.of_to in Hv.
  destruct (Nat.iter _ _ _) eqn:E; rewrite ?Hv; try done.
  exfalso. destruct (w - _); simpl in E; [|discriminate].
  by apply (to_uint_not_nil n).
Qed.

Lemma int_of_first_zfill (w n : nat) : int_of_first [PStr (zfill w n)] = Returns (Z.of_nat n).
Proof. exact (py_int_zfill w n). Qed.

Lemma zfill_inj (w n n' : nat) : zfill w n = zfill w n' -> n = n'.
Proof.
  intros E. pose proof (py_int_zfill w n) as H. rewrite E, py_int_zfill in H.
  injection H. lia.
Qed.

(** ** Rows of the join *)

Lemma elem_of_join (db : database) (j : joined) :
  j ∈ join db ↔
  j_m j ∈ measurements db ∧ j_d j ∈ devices db ∧ j_r j ∈ rooms db ∧
  d_id (j_d j) = m_device (j_m j) ∧ d_room (j_d j) = Some (r_id (j_r j)).
Proof.
  unfold join. rewrite list_elem_of_bind. split.
  - intros (m & Hj & Hm). apply list_elem_of_bind in Hj as (d & Hj & Hd).
    apply list_elem_of_bind in Hj as (r & Hj & Hr).
    apply list_elem_of_singleton in Hj as ->. simpl.
    apply list_elem_of_filter in Hd as [? ?]. apply list_elem_of_filter in Hr as [? ?]. done.
  - intros (Hm & Hd & Hr & E1 & E2). exists (j_m j). split; [|done].
    apply list_elem_of_bind. exists (j_d j). split; [|by apply list_elem_of_filter].
    apply list_elem_of_bind. exists (j_r j). split; [|by apply list_elem_of_filter].
    destruct j. apply list_elem_of_here.
Qed.

Lemma join_no_measurements (db : database) : measurements db = [] -> join db = [].
Proof. unfold join. by intros ->. Qed.

(** ** What each method computes *)

Lemma filter_none {A : Type} (P : A → Prop) `{!∀ x, Decision (P x)} (l : list A) :
  (∀ x, x ∈ l → ¬ P x) → filter P l = [].
Proof.
  intros Hnone. destruct (filter P l) as [|x k] eqn:E; [done|].
  assert (Hx : x ∈ filter P l) by (rewrite E; apply list_elem_of_here).
  apply list_elem_of_filter in Hx as [HP Hin]. by destruct (Hnone x Hin).
Qed.

Lemma comprehension_first {A : Type} (f : A → pyval) (l : list A) :
  comprehension (λ t, item t 0) ((λ x, [f x]) <$> l) = Returns (f <$> l).
Proof. induction l as [|x l IH]; csimpl; [done|]. by rewrite IH. Qed.

Lemma get_most_recent_sensor_reading_run (sensor : Device) (p : SmartHousePersistence) :
  get_most_recent_sensor_reading sensor p =
  (Returns (first_or_none (head (select_most_recent (tables p) (db_id sensor)))),
   {| tables := tables p; cursor := tail (select_most_recent (tables p) (db_id sensor)) |}).
Proof.
  unfold get_most_recent_sensor_reading, bind, execute, fetchone, ret. simpl.
  destruct (select_most_recent _ _); reflexivity.
Qed.

Lemma get_coldest_room_run (p : SmartHousePersistence) :
  get_coldest_room p =
  (Returns (first_or_none (head (select_coldest (tables p)))),
   {| tables := tables p; cursor := tail (select_coldest (tables p)) |}).
Proof.
  unfold get_coldest_room, bind, execute, fetchone, ret. simpl.
  destruct (select_coldest _); reflexivity.
Qed.

Lemma get_sensor_readings_in_timespan_run (sensor : Device) (from_ts to_ts : datetime)
    (p : SmartHousePersistence) :
  get_sensor_readings_in_timespan sensor from_ts to_ts p =
  (Returns ((λ m, PFloat (m_value m))
            <$> filter (in_timespan (db_id sensor) from_ts to_ts) (measurements (tables p))),
   {| tables := tables p; cursor := [] |}).
Proof.
  unfold get_sensor_readings_in_timespan, bind, execute, fetchall, lift. simpl.
  unfold select_timespan. by rewrite (comprehension_first (λ m, PFloat (m_value m))).
Qed.

Lemma describe_temperature_in_rooms_run (p : SmartHousePersistence) :
  describe_temperature_in_rooms p =
  (for_rows (select_temperatures (tables p)) ∅, {| tables := tables p; cursor := [] |}).
Proof. reflexivity. Qed.

Lemma get_hours_when_humidity_above_average_run (room_name : string) (day : date)
    (p : SmartHousePersistence) :
  plain_text room_name = true ->
  get_hours_when_humidity_above_average room_name day p =
  (comprehension int_of_first (select_humid_hours (tables p) room_name day),
   {| tables := tables p; cursor := [] |}).
Proof.
  intros Hs. unfold get_hours_when_humidity_above_average, bind, execute, fetchall, lift.
  simpl. rewrite Hs. reflexivity.
Qed.

(** ** Most recent reading *)




(** ** Readings in a timespan *)




(** ** Coldest room *)

Lemma colder_step_cases (best x : joined) :
  is_nan (m_value (j_m best)) = false -> is_nan (m_value (j_m x)) = false ->
  (colder_step best x = best \/ colder_step best x = x) /\
  (m_value (j_m (colder_step best x)) <=? m_value (j_m best))%float = true /\
  (m_value (j_m (colder_step best x)) <=? m_value (j_m x))%float = true.
Proof.
  intros Hb Hx. unfold colder_step. destruct (_ <? _)%float eqn:E.
  - split; [by right|]. split; [by apply float_ltb_leb | by apply float_leb_refl].
  - split; [by left|]. split; [by apply float_leb_refl | by apply float_not_ltb_leb].
Qed.

Lemma fold_colder_step (js : list joined) (j : joined) :
  Forall (λ j, is_nan (m_value (j_m j)) = false) (j :: js) ->
  fold_left colder_step js j ∈ j :: js /\
  ∀ j', j' ∈ j :: js →
    (m_value (j_m (fold_left colder_step js j)) <=? m_value (j_m j'))%float = true.
Proof.
  revert j. induction js as [|a js IH]; intros j Hall; simpl.
  - apply Forall_cons in Hall as [Hj _].
    split; [apply list_elem_of_here|]. intros j' Hj'.
    apply list_elem_of_singleton in Hj' as ->. by apply float_leb_refl.
  - apply Forall_cons in Hall as [Hj Hall]. apply Forall_cons in Hall as [Ha Hall].
    destruct (colder_step_cases j a Hj Ha) as (Hc & Hle1 & Hle2).
    assert (Hn : is_nan (m_value (j_m (colder_step j a))) = false)
      by (destruct Hc as [-> | ->]; done).
    destruct (IH (colder_step j a)) as (Hin & Hlow); [by apply Forall_cons|].
    assert (Hm : (m_value (j_m (fold_left colder_step js (colder_step j a)))
                  <=? m_value (j_m (colder_step j a)))%float = true)
      by (apply Hlow, list_elem_of_here).
    split.
    + apply elem_of_cons in Hin as [Hin | Hin]; [|by do 2 apply list_elem_of_further].
      rewrite Hin. destruct Hc as [-> | ->];
        [apply list_elem_of_here | apply list_elem_of_further, list_elem_of_here].
    + intros j' Hj'. rewrite !elem_of_cons in Hj'.
      destruct Hj' as [-> | [-> | Hj']]; [by eapply float_leb_trans..|].
      apply Hlow. by apply list_elem_of_further.
Qed.

Lemma join_no_nan (db : database) :
  no_nan (m_value <$> measurements db) ->
  Forall (λ j, is_nan (m_value (j_m j)) = false) (join db).
Proof.
  intros Hn. apply Forall_forall. intros j Hj. apply elem_of_join in Hj as (Hm & _).
  unfold no_nan in Hn. rewrite Forall_forall in Hn. apply Hn.
  by apply (list_elem_of_fmap_2 m_value).
Qed.

(** C5: the coldest room is the name of a room that holds a row of the
    join with the least value of all rows of the join, whatever the type
    of their devices; one name is returned, and no value when the join is
    empty. *)
Theorem coldest_room_holds_global_minimum (p : SmartHousePersistence) :
  no_nan (m_value <$> measurements (tables p)) ->
  ∃ v, (get_coldest_room p).1 = Returns v ∧
    (v = PNone ↔ join (tables p) = []) ∧
    (join (tables p) ≠ [] →
       ∃ j, j ∈ join (tables p) ∧ v = PStr (r_name (j_r j)) ∧
         (∀ j', j' ∈ join (tables p) →
            (m_value (j_m j) <=? m_value (j_m j'))%float = true) ∧
         (∀ m d r, m ∈ measurements (tables p) → d ∈ devices (tables p) →
            r ∈ rooms (tables p) → d_id d = m_device m → d_room d = Some (r_id r) →
            (m_value (j_m j) <=? m_value m)%float = true)).
Proof.
  intros Hn. apply join_no_nan in Hn.
  rewrite get_coldest_room_run. simpl. unfold select_coldest.
  destruct (join (tables p)) as [|j js] eqn:E; simpl.
  - exists PNone. split; [done|]. split; [done|]. done.
  - destruct (fold_colder_step js j Hn) as [Hin Hlow].
    eexists. split; [reflexivity|]. split; [done|]. intros _.
    exists (fold_left colder_step js j). split; [done|]. split; [done|]. split; [done|].
    intros m d r Hm Hd Hr E1 E2.
    apply (Hlow {| j_m := m; j_d := d; j_r := r |}).
    rewrite <- E. by apply elem_of_join.
Qed.

(** C7: with no measurement rows the coldest room is no value; nothing is
    raised. *)
Theorem coldest_room_of_empty_table (p : SmartHousePersistence) :
  measurements (tables p) = [] ->
  (get_coldest_room p).1 = Returns PNone.
Proof.
  intros E. rewrite get_coldest_room_run. simpl. unfold select_coldest.
  by rewrite (join_no_measurements _ E).
Qed.

(** ** Frame *)

(** C8: none of the five operations changes the stored tables; only the
    rows pending on the cursor change. *)
Theorem analytics_read_only (p : SmartHousePersistence) (sensor : Device)
    (from_ts to_ts : datetime) (room_name : string) (day : date) :
  tables (get_most_recent_sensor_reading sensor p).2 = tables p ∧
  tables (get_coldest_room p).2 = tables p ∧
  tables (get_sensor_readings_in_timespan sensor from_ts to_ts p).2 = tables p ∧
  tables (describe_temperature_in_rooms p).2 = tables p ∧
  tables (get_hours_when_humidity_above_average room_name day p).2 = tables p.
Proof.
  rewrite get_most_recent_sensor_reading_run, get_coldest_room_run,
    get_sensor_readings_in_timespan_run, describe_temperature_in_rooms_run.
  repeat split.
  unfold get_hours_when_humidity_above_average, bind, execute, fetchall, lift. simpl.
  destruct (plain_text room_name); [done|].
  by destruct (altered_text room_name day (tables p)).
Qed.

(** C10: the two readings operations see their device argument through
    [db_id] alone. *)
Theorem readings_depend_on_db_id_only (s1 s2 : Device) (p : SmartHousePersistence)
    (from_ts to_ts : datetime) :
  db_id s1 = db_id s2 ->
  get_most_recent_sensor_reading s1 p = get_most_recent_sensor_reading s2 p ∧
  get_sensor_readings_in_timespan s1 from_ts to_ts p
  = get_sensor_readings_in_timespan s2 from_ts to_ts p.
Proof.
  intros E. unfold get_most_recent_sensor_reading, get_sensor_readings_in_timespan.
  by rewrite E.
Qed.

(** ** Temperature summary by room *)

Lemma elem_of_group_keys (keys : list (option string)) (key : option string) :
  key ∈ group_keys keys ↔ key ∈ keys.
Proof.
  unfold group_keys. rewrite (merge_sort_Permutation key_le (remove_dups keys)).
  apply elem_of_remove_dups.
Qed.

Lemma for_rows_groups (a b c : option string → pyval) (ks : list (option string))
    (acc : gmap string (pyval * pyval * pyval)) :
  Forall is_Some ks ->
  ∃ dict, for_rows ((λ key, [text_to_py key; a key; b key; c key]) <$> ks) acc = Returns dict ∧
    ∀ name, (Some name ∈ ks → dict !! name = Some (a (Some name), b (Some name), c (Some name))) ∧
            (Some name ∉ ks → dict !! name = acc !! name).
Proof.
  revert acc. induction ks as [|k ks IH]; intros acc Hall; csimpl.
  - exists acc. split; [done|]. intros name. split; [|done].
    intros H. by apply elem_of_nil in H.
  - apply Forall_cons in Hall as [[n ->] Hall]. simpl.
    destruct (IH (<[n := (a (Some n), b (Some n), c (Some n))]> acc) Hall) as (dict & -> & Hd).
    exists dict. split; [done|]. intros name. destruct (Hd name) as [Hin Hout]. split.
    + intros H. destruct (decide (Some name ∈ ks)) as [Hk | Hk]; [by apply Hin|].
      apply elem_of_cons in H as [[= ->] | H]; [|done].
      rewrite (Hout Hk). apply lookup_insert_eq.
    + intros H. rewrite not_elem_of_cons in H. destruct H as [Hne Hk].
      rewrite (Hout Hk). apply lookup_insert_ne. congruence.
Qed.

Lemma temperature_group_values (db : database) (name : string) :
  (λ j, m_value (j_m j))
  <$> filter (λ j, Some (r_name (j_r j)) = Some name)
        (filter (λ j, d_type (j_d j) = "Temperatursensor") (join db))
  = temperature_values db name.
Proof.
  unfold temperature_values. f_equal. rewrite list_filter_filter.
  apply list_filter_iff. intros j. split.
  - by intros [[= ->] ?].
  - by intros [? ->].
Qed.

Lemma temperature_key (db : database) (name : string) :
  Some name ∈ (λ j, Some (r_name (j_r j)))
              <$> filter (λ j, d_type (j_d j) = "Temperatursensor") (join db)
  ↔ temperature_values db name ≠ [].
Proof.
  unfold temperature_values. split.
  - intros Hin E. apply list_elem_of_fmap in Hin as (j & [= Hn] & Hj).
    apply list_elem_of_filter in Hj as [Ht Hj].
    apply fmap_nil_inv in E.
    assert (Hx : j ∈ filter (λ j, d_type (j_d j) = "Temperatursensor" ∧ r_name (j_r j) = name)
                   (join db)) by (by apply list_elem_of_filter).
    rewrite E in Hx. by apply elem_of_nil in Hx.
  - intros Hne.
    destruct (filter (λ j, d_type (j_d j) = "Temperatursensor" ∧ r_name (j_r j) = name) (join db))
      as [|j js] eqn:E; [done|].
    assert (Hx : j ∈ filter (λ j, d_type (j_d j) = "Temperatursensor" ∧ r_name (j_r j) = name)
                   (join db)) by (rewrite E; apply list_elem_of_here).
    apply list_elem_of_filter in Hx as [[Ht Hn] Hj].
    apply list_elem_of_fmap. exists j. split; [by rewrite Hn|]. by apply list_elem_of_filter.
Qed.

Lemma describe_lookup (db : database) :
  ∃ dict, for_rows (select_temperatures db) ∅ = Returns dict ∧
    ∀ name, dict !! name = summary (temperature_values db name).
Proof.
  unfold select_temperatures.
  set (rows := filter (λ j, d_type (j_d j) = "Temperatursensor") (join db)).
  set (vs := λ key : option string,
         (λ j, m_value (j_m j)) <$> filter (λ j, Some (r_name (j_r j)) = key) rows).
  destruct (for_rows_groups (λ key, to_py (sql_min (vs key))) (λ key, to_py (sql_max (vs key)))
              (λ key, to_py (sql_avg (vs key)))
              (group_keys ((λ j, Some (r_name (j_r j))) <$> rows)) ∅) as (dict & E & Hd).
  { apply Forall_forall. intros key Hk. rewrite elem_of_group_keys in Hk.
    apply list_elem_of_fmap in Hk as (j & -> & _). by eexists. }
  exists dict. split; [exact E|]. intros name. destruct (Hd name) as [Hin Hout].
  destruct (decide (Some name ∈ group_keys ((λ j, Some (r_name (j_r j))) <$> rows))) as [Hk | Hk].
  - rewrite (Hin Hk). unfold vs, rows. rewrite temperature_group_values.
    rewrite elem_of_group_keys in Hk. unfold rows in Hk. rewrite temperature_key in Hk.
    by destruct (temperature_values db name).
  - rewrite (Hout Hk), lookup_empty.
    destruct (temperature_values db name) eqn:Ev; [done|]. exfalso. apply Hk.
    rewrite elem_of_group_keys. unfold rows. rewrite temperature_key. by rewrite Ev.
Qed.

Lemma temperature_values_no_nan (db : database) (name : string) :
  no_nan (m_value <$> measurements db) -> no_nan (temperature_values db name).
Proof.
  intros Hn. apply join_no_nan in Hn. unfold no_nan, temperature_values.
  rewrite Forall_fmap. apply Forall_forall. intros j Hj.
  apply list_elem_of_filter in Hj as [_ Hj]. rewrite Forall_forall in Hn. by apply Hn.
Qed.


(** C9, as amended: every entry of the summary has its least value below
    or equal to its greatest value, both taken from the room's rows; the
    third component is the binary64 quotient of sum and count (or no
    value when that is not a number), with no bound claimed on it. *)
Theorem summary_min_le_max (p : SmartHousePersistence)
    (dict : gmap string (pyval * pyval * pyval)) (name : string) (mn mx av : pyval) :
  no_nan (m_value <$> measurements (tables p)) ->
  (describe_temperature_in_rooms p).1 = Returns dict ->
  dict !! name = Some (mn, mx, av) ->
  ∃ lo hi, mn = PFloat lo ∧ mx = PFloat hi ∧ (lo <=? hi)%float = true ∧
           av = to_py (sql_avg (temperature_values (tables p) name)).
Proof.
  intros Hn. rewrite describe_temperature_in_rooms_run. simpl.
  destruct (describe_lookup (tables p)) as (dict' & -> & Hd). intros [= <-] E.
  rewrite Hd in E.
  pose proof (temperature_values_no_nan (tables p) name Hn) as Hv.
  destruct (temperature_values (tables p) name) as [|v vs]; [done|].
  apply Forall_cons in Hv as [Hv Hvs]. simpl in E. injection E as <- <- <-.
  destruct (fold_min_step vs v Hv Hvs) as (_ & _ & Hlow).
  destruct (fold_max_step vs v Hv Hvs) as (_ & _ & Hup).
  eexists _, _. split; [done|]. split; [done|]. split; [|done].
  eapply float_leb_trans; [apply Hlow | apply Hup]; apply list_elem_of_here.
Qed.

(** ** Hours of humidity above the comparison average *)

Lemma length_filter_fmap {A B : Type} (f : A → B) (P : B → Prop) `{!∀ y, Decision (P y)}
    (l : list A) :
  length (filter P (f <$> l)) = length (filter (λ x, P (f x)) l).
Proof.
  induction l as [|x l IH]; csimpl; [done|].
  rewrite !filter_cons. destruct (decide (P (f x))); simpl; by rewrite IH.
Qed.

Lemma on_day_parsed (day : date) (m : Measurement) :
  on_day day m -> is_Some (parse_time (m_time_stamp m)).
Proof.
  unfold on_day, sql_eq, sql_date. destruct (parse_time (m_time_stamp m)); [by eexists|].
  by intros [].
Qed.

Lemma sql_hours_hour_of (m : Measurement) (h : nat) :
  sql_hours (m_time_stamp m) = Some (zfill 2 h) ↔ hour_of m = Some h.
Proof.
  unfold sql_hours, hour_of. destruct (parse_time (m_time_stamp m)) as [t|]; simpl; [|done].
  split.
  - intros [= E]. by rewrite (zfill_inj _ _ _ E).
  - by intros [= ->].
Qed.

Lemma comprehension_hours (ks : list (option string)) :
  Forall (λ k, ∃ h, k = Some (zfill 2 h)) ks ->
  ∃ l, comprehension int_of_first ((λ key, [text_to_py key]) <$> ks) = Returns l ∧
       ∀ z, z ∈ l ↔ ∃ h, z = Z.of_nat h ∧ Some (zfill 2 h) ∈ ks.
Proof.
  induction ks as [|k ks IH]; intros Hall; csimpl.
  - exists []. split; [done|]. intros z. split.
    + intros H. by apply elem_of_nil in H.
    + intros (h & _ & H). by apply elem_of_nil in H.
  - apply Forall_cons in Hall as [[h0 ->] Hall]. destruct (IH Hall) as (l & -> & Hl).
    cbn [text_to_py]. rewrite int_of_first_zfill.
    exists (Z.of_nat h0 :: l). split; [done|]. intros z. rewrite elem_of_cons, Hl. split.
    + intros [-> | (h & -> & Hin)].
      * exists h0. split; [done|]. apply list_elem_of_here.
      * exists h. split; [done|]. by apply list_elem_of_further.
    + intros (h & -> & Hin). apply elem_of_cons in Hin as [[= E] | Hin].
      * left. by rewrite (zfill_inj _ _ _ E).
      * right. by exists h.
Qed.

Lemma humid_hours_count (db : database) (room_name : string) (day : date) (h : nat) :
  length (filter (λ k, k = Some (zfill 2 h))
            ((λ j, sql_hours (m_time_stamp (j_m j)))
             <$> filter (humid_row db room_name day) (join db)))
  = length (qualifying db room_name day (select_day_average db day) h).
Proof.
  rewrite (length_filter_fmap (λ j, sql_hours (m_time_stamp (j_m j)))).
  rewrite list_filter_filter. unfold qualifying. f_equal.
  apply list_filter_iff. intros j. unfold humid_row. rewrite sql_hours_hour_of. tauto.
Qed.

Lemma humid_hours_member (db : database) (room_name : string) (day : date) :
  ∃ l, comprehension int_of_first (select_humid_hours db room_name day) = Returns l ∧
       ∀ z, z ∈ l ↔
            ∃ h, z = Z.of_nat h ∧
                 3 < length (qualifying db room_name day (select_day_average db day) h).
Proof.
  unfold select_humid_hours.
  set (hours := (λ j, sql_hours (m_time_stamp (j_m j)))
                <$> filter (humid_row db room_name day) (join db)).
  destruct (comprehension_hours
              (filter (λ key, 3 < length (filter (λ h, h = key) hours)) (group_keys hours)))
    as (l & E & Hl).
  { apply Forall_forall. intros k Hk. apply list_elem_of_filter in Hk as [_ Hk].
    rewrite elem_of_group_keys in Hk. unfold hours in Hk.
    apply list_elem_of_fmap in Hk as (j & -> & Hj).
    apply list_elem_of_filter in Hj as [(_ & _ & Hday & _) _].
    apply on_day_parsed in Hday as [t Ht]. exists (tv_hour t).
    unfold sql_hours. by rewrite Ht. }
  exists l. split; [exact E|]. intros z. rewrite Hl.
  split; intros (h & -> & Hh); exists h; (split; [done|]).
  - apply list_elem_of_filter in Hh as [Hc _]. unfold hours in Hc.
    by rewrite humid_hours_count in Hc.
  - rewrite <- humid_hours_count in Hh. fold hours in Hh.
    apply list_elem_of_filter. split; [done|]. rewrite elem_of_group_keys.
    destruct (filter (λ k, k = Some (zfill 2 h)) hours) as [|k ks] eqn:Ef; [simpl in Hh; lia|].
    assert (Hk : k ∈ filter (λ k, k = Some (zfill 2 h)) hours)
      by (rewrite Ef; apply list_elem_of_here).
    by apply list_elem_of_filter in Hk as [-> Hk].
Qed.



(** * Further properties of the operations *)

(** ** Calls are independent of the cursor *)

Lemma get_hours_tables_only (room_name : string) (day : date) (p q : SmartHousePersistence) :
  tables p = tables q ->
  (get_hours_when_humidity_above_average room_name day p).1
  = (get_hours_when_humidity_above_average room_name day q).1.
Proof.
  intros E. unfold get_hours_when_humidity_above_average, bind, execute, fetchall, lift.
  simpl. rewrite E. destruct (plain_text room_name); [done|].
  by destruct (altered_text room_name day (tables q)).
Qed.

(** X1: what an operation answers depends on the stored tables alone; rows
    that an earlier call left pending on the shared cursor never show. *)
Theorem outcome_depends_on_tables_only (p q : SmartHousePersistence) (sensor : Device)
    (from_ts to_ts : datetime) (room_name : string) (day : date) :
  tables p = tables q ->
  (get_most_recent_sensor_reading sensor p).1 = (get_most_recent_sensor_reading sensor q).1 ∧
  (get_coldest_room p).1 = (get_coldest_room q).1 ∧
  (get_sensor_readings_in_timespan sensor from_ts to_ts p).1
  = (get_sensor_readings_in_timespan sensor from_ts to_ts q).1 ∧
  (describe_temperature_in_rooms p).1 = (describe_temperature_in_rooms q).1 ∧
  (get_hours_when_humidity_above_average room_name day p).1
  = (get_hours_when_humidity_above_average room_name day q).1.
Proof.
  intros E. rewrite !get_most_recent_sensor_reading_run, !get_coldest_room_run,
    !get_sensor_readings_in_timespan_run, !describe_temperature_in_rooms_run. simpl.
  rewrite E. repeat split. by apply get_hours_tables_only.
Qed.

(** ** Readings in a timespan, further *)

Lemma sublist_filter_impl {A : Type} (P Q : A → Prop) `{!∀ x, Decision (P x)}
    `{!∀ x, Decision (Q x)} (l : list A) :
  (∀ x, P x → Q x) → filter P l `sublist_of` filter Q l.
Proof.
  intros HPQ. induction l as [|x l IH]; [done|]. rewrite !filter_cons.
  destruct (decide (P x)) as [HP | HP].
  - rewrite decide_True by auto. by constructor.
  - destruct (decide (Q x)); [by constructor|done].
Qed.

Lemma sql_le_trans (a b c : option (list nat)) :
  sql_le a b = true -> sql_le b c = true -> sql_le a c = true.
Proof.
  destruct a as [a|], b as [b|], c as [c|]; simpl; try done.
  pose proof (lex_compare_trans a b c) as Ht.
  destruct (lex_compare a b), (lex_compare b c), (lex_compare a c); try done;
    intros _ _; exfalso; by apply Ht.
Qed.


Lemma in_timespan_bounds (device : Z) (from_ts to_ts : datetime) (m : Measurement) :
  in_timespan device from_ts to_ts m ↔
  m_device m = device ∧
  sql_le (sql_datetime (str_datetime from_ts)) (sql_datetime (m_time_stamp m)) = true ∧
  sql_le (sql_datetime (m_time_stamp m)) (sql_datetime (str_datetime to_ts)) = true.
Proof.
  unfold in_timespan, sql_between. rewrite andb_True, !Is_true_true. tauto.
Qed.

(** X2: the readings of a timespan are readings of the device, in table
    order and each at most as often as it is stored: a sublist of the
    values of the device's rows. *)
Theorem timespan_readings_among_device_rows (p : SmartHousePersistence) (sensor : Device)
    (from_ts to_ts : datetime) :
  ∃ l, (get_sensor_readings_in_timespan sensor from_ts to_ts p).1 = Returns l ∧
       l `sublist_of` ((λ m, PFloat (m_value m)) <$> readings_of (tables p) (db_id sensor)) ∧
       (length l ≤ length (readings_of (tables p) (db_id sensor)))%nat.
Proof.
  rewrite get_sensor_readings_in_timespan_run. simpl. eexists. split; [reflexivity|].
  assert (Hsub : filter (in_timespan (db_id sensor) from_ts to_ts) (measurements (tables p))
                 `sublist_of` readings_of (tables p) (db_id sensor)).
  { apply sublist_filter_impl. by intros m [Hd _]. }
  split.
  - by apply fmap_sublist.
  - rewrite length_fmap. by apply sublist_length.
Qed.

(** X3: a wider timespan keeps every reading of a narrower one, in the
    same order. *)
Theorem timespan_readings_widen (p : SmartHousePersistence) (sensor : Device)
    (from_ts to_ts from_ts' to_ts' : datetime) (l l' : list pyval) :
  sql_le (sql_datetime (str_datetime from_ts')) (sql_datetime (str_datetime from_ts)) = true ->
  sql_le (sql_datetime (str_datetime to_ts)) (sql_datetime (str_datetime to_ts')) = true ->
  (get_sensor_readings_in_timespan sensor from_ts to_ts p).1 = Returns l ->
  (get_sensor_readings_in_timespan sensor from_ts' to_ts' p).1 = Returns l' ->
  l `sublist_of` l'.
Proof.
  intros Hfrom Hto. rewrite !get_sensor_readings_in_timespan_run. simpl.
  intros [= <-] [= <-]. apply fmap_sublist, sublist_filter_impl.
  intros m. rewrite !in_timespan_bounds. intros (Hd & H1 & H2).
  split; [done|]. split; by eapply sql_le_trans.
Qed.



(** X6: the two readings operations look at the measurement rows of their
    device alone: a row of another device, stored anywhere in the table,
    changes neither answer, and the rooms and devices tables are not
    consulted. *)
Theorem readings_ignore_other_devices (p p' : SmartHousePersistence) (sensor : Device)
    (from_ts to_ts : datetime) (before after : list Measurement) (m : Measurement) :
  m_device m ≠ db_id sensor ->
  measurements (tables p) = (before ++ after)%list ->
  measurements (tables p') = (before ++ m :: after)%list ->
  (get_most_recent_sensor_reading sensor p').1 = (get_most_recent_sensor_reading sensor p).1 ∧
  (get_sensor_readings_in_timespan sensor from_ts to_ts p').1
  = (get_sensor_readings_in_timespan sensor from_ts to_ts p).1.
Proof.
  intros Hm E E'. rewrite !get_most_recent_sensor_reading_run,
    !get_sensor_readings_in_timespan_run. simpl.
  unfold select_most_recent. rewrite E, E', !filter_app, !filter_cons.
  rewrite decide_False by done.
  rewrite (decide_False (P := in_timespan (db_id sensor) from_ts to_ts m)); [done|].
  by intros [Hd _].
Qed.

(** ** Which rows the join-based operations see *)

Lemma joined_with_tables (db db' : database) (m : Measurement) :
  rooms db' = rooms db -> devices db' = devices db -> joined_with db' m = joined_with db m.
Proof. intros Hr Hd. unfold joined_with. by rewrite Hr, Hd. Qed.

Lemma join_insert (db db' : database) (before after : list Measurement) (m : Measurement) :
  rooms db' = rooms db -> devices db' = devices db ->
  measurements db = (before ++ after)%list ->
  measurements db' = (before ++ m :: after)%list ->
  join db = ((before ≫= joined_with db) ++ (after ≫= joined_with db))%list ∧
  join db' = ((before ≫= joined_with db) ++ joined_with db m
              ++ (after ≫= joined_with db))%list.
Proof.
  intros Hr Hd E E'.
  change (join db) with (measurements db ≫= joined_with db).
  change (join db') with (measurements db' ≫= joined_with db').
  assert (Hf : ∀ l : list Measurement, l ≫= joined_with db' = l ≫= joined_with db).
  { intros l. apply list_bind_ext; [|done]. intros m'. by apply joined_with_tables. }
  rewrite E, E', !bind_app, bind_cons. split; [done|].
  by rewrite !Hf, (joined_with_tables db db' m Hr Hd).
Qed.

Lemma joined_with_unplaced (db : database) (m : Measurement) :
  (∀ d r, d ∈ devices db → r ∈ rooms db → d_id d = m_device m →
          d_room d ≠ Some (r_id r)) ->
  joined_with db m = [].
Proof.
  intros Hun. destruct (joined_with db m) as [|j js] eqn:E; [done|]. exfalso.
  assert (Hj : j ∈ joined_with db m) by (rewrite E; apply list_elem_of_here).
  unfold joined_with in Hj. apply list_elem_of_bind in Hj as (d & Hj & Hd).
  apply list_elem_of_bind in Hj as (r & _ & Hr).
  apply list_elem_of_filter in Hd as [Hid Hd]. apply list_elem_of_filter in Hr as [Hroom Hr].
  by apply (Hun d r).
Qed.

Lemma joined_with_types (db : database) (m : Measurement) (j : joined) :
  j ∈ joined_with db m ->
  j_m j = m ∧ j_d j ∈ devices db ∧ j_r j ∈ rooms db ∧
  d_id (j_d j) = m_device m ∧ d_room (j_d j) = Some (r_id (j_r j)).
Proof.
  unfold joined_with. intros Hj. apply list_elem_of_bind in Hj as (d & Hj & Hd).
  apply list_elem_of_bind in Hj as (r & Hj & Hr). apply list_elem_of_singleton in Hj as ->.
  apply list_elem_of_filter in Hd as [? ?]. apply list_elem_of_filter in Hr as [? ?]. done.
Qed.

Lemma select_day_average_insert (db db' : database) (before after : list Measurement)
    (m : Measurement) (day : date) :
  m_device m ≠ comparison_device ->
  measurements db = (before ++ after)%list ->
  measurements db' = (before ++ m :: after)%list ->
  select_day_average db' day = select_day_average db day.
Proof.
  intros Hm E E'. unfold select_day_average. rewrite E, E', !filter_app, filter_cons.
  rewrite decide_False; [done|]. by intros [? _].
Qed.

(** X7: a measurement whose device has no row placed in a stored room is
    not seen by the coldest room and the temperature summary, and, unless
    it belongs to device 21, not by the humid hours, wherever it is stored
    in the table. *)
Theorem unplaced_measurement_not_seen (p p' : SmartHousePersistence)
    (before after : list Measurement) (m : Measurement) :
  (∀ d r, d ∈ devices (tables p) → r ∈ rooms (tables p) → d_id d = m_device m →
          d_room d ≠ Some (r_id r)) ->
  rooms (tables p') = rooms (tables p) ->
  devices (tables p') = devices (tables p) ->
  measurements (tables p) = (before ++ after)%list ->
  measurements (tables p') = (before ++ m :: after)%list ->
  (get_coldest_room p').1 = (get_coldest_room p).1 ∧
  (describe_temperature_in_rooms p').1 = (describe_temperature_in_rooms p).1 ∧
  (∀ room_name day, plain_text room_name = true → m_device m ≠ 21%Z →
     (get_hours_when_humidity_above_average room_name day p').1
     = (get_hours_when_humidity_above_average room_name day p).1).
Proof.
  intros Hun Hr Hd E E'.
  destruct (join_insert (tables p) (tables p') before after m Hr Hd E E') as [Hj Hj'].
  rewrite (joined_with_unplaced _ _ Hun) in Hj'. simpl in Hj'. rewrite <- Hj in Hj'.
  rewrite !get_coldest_room_run, !describe_temperature_in_rooms_run. simpl.
  unfold select_coldest, select_temperatures. rewrite Hj'. split; [done|]. split; [done|].
  intros room_name day Hs Hm.
  rewrite !(get_hours_when_humidity_above_average_run _ _ _ Hs). simpl.
  unfold select_humid_hours, humid_row.
  by rewrite Hj', (select_day_average_insert _ _ _ _ _ day Hm E E').
Qed.

(** X8: a measurement of a device that is not a temperature sensor never
    changes the temperature summary. *)
Theorem summary_ignores_other_sensors (p p' : SmartHousePersistence)
    (before after : list Measurement) (m : Measurement) :
  (∀ d, d ∈ devices (tables p) → d_id d = m_device m → d_type d ≠ "Temperatursensor") ->
  rooms (tables p') = rooms (tables p) ->
  devices (tables p') = devices (tables p) ->
  measurements (tables p) = (before ++ after)%list ->
  measurements (tables p') = (before ++ m :: after)%list ->
  (describe_temperature_in_rooms p').1 = (describe_temperature_in_rooms p).1.
Proof.
  intros Hty Hr Hd E E'.
  destruct (join_insert (tables p) (tables p') before after m Hr Hd E E') as [Hj Hj'].
  rewrite !describe_temperature_in_rooms_run. simpl. unfold select_temperatures.
  assert (Hrows : filter (λ j, d_type (j_d j) = "Temperatursensor") (join (tables p'))
                  = filter (λ j, d_type (j_d j) = "Temperatursensor") (join (tables p))).
  { rewrite Hj, Hj', !filter_app. f_equal.
    rewrite (filter_none _ (joined_with (tables p) m)); [done|].
    intros j Hjm Ht. apply joined_with_types in Hjm as (_ & Hdev & _ & Hid & _).
    by apply (Hty (j_d j)). }
  by rewrite Hrows.
Qed.

Lemma joined_with_retyped (g : DeviceRow → string) (db : database) (m : Measurement) :
  joined_with (retyped g db) m = relabel g <$> joined_with db m.
Proof.
  unfold joined_with, retyped. simpl.
  induction (devices db) as [|d ds IH]; [done|]. csimpl.
  rewrite !filter_cons. simpl. destruct (decide (d_id d = m_device m)); [|exact IH].
  rewrite !bind_cons, fmap_app, IH. f_equal. cbn [d_room].
  induction (filter (λ r, d_room d = Some (r_id r)) (rooms db)) as [|r rs IHr]; [done|].
  rewrite !bind_cons, fmap_app, IHr. done.
Qed.

Lemma join_retyped (g : DeviceRow → string) (db : database) :
  join (retyped g db) = relabel g <$> join db.
Proof.
  change (join (retyped g db)) with (measurements db ≫= joined_with (retyped g db)).
  change (join db) with (measurements db ≫= joined_with db).
  induction (measurements db) as [|m ms IH]; [done|].
  by rewrite !bind_cons, fmap_app, IH, joined_with_retyped.
Qed.

Lemma fold_colder_step_relabel (g : DeviceRow → string) (js : list joined) (j : joined) :
  fold_left colder_step (relabel g <$> js) (relabel g j)
  = relabel g (fold_left colder_step js j).
Proof.
  revert j. induction js as [|a js IH]; intros j; csimpl; [done|].
  rewrite <- IH. f_equal. unfold colder_step. simpl. by destruct (_ <? _)%float.
Qed.

(** X9: the coldest room does not depend on the type tags of the devices:
    giving every device another type leaves the answer as it is. *)
Theorem coldest_room_ignores_device_types (g : DeviceRow → string)
    (p : SmartHousePersistence) :
  (get_coldest_room (on_tables (retyped g (tables p)) p)).1 = (get_coldest_room p).1.
Proof.
  rewrite !get_coldest_room_run. simpl. unfold select_coldest. rewrite join_retyped.
  destruct (join (tables p)) as [|j js]; csimpl; [done|].
  by rewrite fold_colder_step_relabel.
Qed.

(** X10: when every placed device is a temperature sensor, the coldest
    room has an entry in the temperature summary, and its least value is
    below or equal to the least value of every entry. *)
Theorem coldest_room_has_least_summary_minimum (p : SmartHousePersistence) (name : string)
    (dict : gmap string (pyval * pyval * pyval)) :
  no_nan (m_value <$> measurements (tables p)) ->
  (∀ j, j ∈ join (tables p) → d_type (j_d j) = "Temperatursensor") ->
  (get_coldest_room p).1 = Returns (PStr name) ->
  (describe_temperature_in_rooms p).1 = Returns dict ->
  ∃ mn mx av, dict !! name = Some (PFloat mn, mx, av) ∧
    ∀ name' mn' mx' av', dict !! name' = Some (PFloat mn', mx', av') →
                         (mn <=? mn')%float = true.
Proof.
  intros Hn Hall. pose proof (join_no_nan _ Hn) as Hjn.
  rewrite get_coldest_room_run, describe_temperature_in_rooms_run. simpl.
  destruct (describe_lookup (tables p)) as (dict' & -> & Hd).
  unfold select_coldest. destruct (join (tables p)) as [|j0 js] eqn:Ej; [done|]. simpl.
  intros [= <-] [= <-].
  destruct (fold_colder_step js j0 Hjn) as [Hbest Hlow].
  set (best := fold_left colder_step js j0) in *.
  assert (Hvals : ∀ n x, x ∈ temperature_values (tables p) n →
            (m_value (j_m best) <=? x)%float = true).
  { intros n x Hx. unfold temperature_values in Hx.
    apply list_elem_of_fmap in Hx as (j & -> & Hj). apply list_elem_of_filter in Hj as [_ Hj].
    apply Hlow. by rewrite Ej in Hj. }
  assert (Hmins : ∀ n mn mx av, dict' !! n = Some (PFloat mn, mx, av) →
            mn ∈ temperature_values (tables p) n ∧
            ∀ x, x ∈ temperature_values (tables p) n → (mn <=? x)%float = true).
  { intros n mn mx av E. rewrite Hd in E.
    pose proof (temperature_values_no_nan (tables p) n Hn) as Hv.
    destruct (temperature_values (tables p) n) as [|v vs]; [done|].
    apply Forall_cons in Hv as [Hv Hvs]. simpl in E. injection E as <- _ _.
    destruct (fold_min_step vs v Hv Hvs) as (Hin & _ & Hmin). done. }
  assert (Hmine : m_value (j_m best) ∈ temperature_values (tables p) (r_name (j_r best))).
  { apply (list_elem_of_fmap_2 (λ j, m_value (j_m j))). apply list_elem_of_filter.
    split; [|by rewrite Ej]. split; [|done]. apply Hall. by rewrite ?Ej. }
  rewrite Hd.
  destruct (temperature_values (tables p) (r_name (j_r best))) as [|v vs] eqn:Ev;
    [by apply elem_of_nil in Hmine|].
  simpl. eexists _, _, _. split; [reflexivity|].
  intros name' mn' mx' av' E'. apply Hmins in E' as [Hin' _].
  eapply float_leb_trans; [|by apply (Hvals name')].
  destruct (Hmins (r_name (j_r best)) (fold_left min_step vs v)
              (to_py (sql_max (v :: vs))) (to_py (sql_avg (v :: vs)))) as [_ Hmin].
  { by rewrite Hd, Ev. }
  apply Hmin. by rewrite Ev.
Qed.

(** ** Humid hours, further *)

Lemma comprehension_length {A B : Type} (f : A → outcome B) (l : list A) (l' : list B) :
  comprehension f l = Returns l' -> length l' = length l.
Proof.
  revert l'. induction l as [|x l IH]; intros l'; simpl.
  - by intros [= <-].
  - destruct (f x); [|done]. destruct (comprehension f l) as [ys|]; [|done].
    intros [= <-]. simpl. f_equal. by apply IH.
Qed.

Lemma humid_keys_texts (db : database) (room_name : string) (day : date) (k : option string) :
  k ∈ (λ j, sql_hours (m_time_stamp (j_m j))) <$> filter (humid_row db room_name day) (join db) ->
  ∃ j t, j ∈ join db ∧ humid_row db room_name day j ∧
         parse_time (m_time_stamp (j_m j)) = Some t ∧ k = Some (zfill 2 (tv_hour t)).
Proof.
  intros Hk. apply list_elem_of_fmap in Hk as (j & -> & Hj).
  apply list_elem_of_filter in Hj as [Hrow Hj].
  destruct Hrow as (Hn & Hty & Hday & Hgt).
  destruct (on_day_parsed _ _ Hday) as [t Ht]. exists j, t.
  split; [done|]. split; [done|]. split; [done|]. unfold sql_hours. by rewrite Ht.
Qed.

Lemma humid_groups (db : database) (room_name : string) (day : date) :
  let hours := (λ j, sql_hours (m_time_stamp (j_m j)))
               <$> filter (humid_row db room_name day) (join db) in
  let groups := filter (λ key, 3 < length (filter (λ h, h = key) hours)) (group_keys hours) in
  NoDup groups ∧ Forall (λ k, ∃ h, k = Some (zfill 2 h)) groups.
Proof.
  intros hours groups. split.
  - apply NoDup_filter. unfold group_keys.
    rewrite (merge_sort_Permutation key_le (remove_dups hours)). apply NoDup_remove_dups.
  - apply Forall_forall. intros k Hk. apply list_elem_of_filter in Hk as [_ Hk].
    rewrite elem_of_group_keys in Hk.
    apply humid_keys_texts in Hk as (j & t & _ & _ & _ & ->). by eexists.
Qed.

Lemma comprehension_hours_NoDup (ks : list (option string)) (l : list Z) :
  Forall (λ k, ∃ h, k = Some (zfill 2 h)) ks -> NoDup ks ->
  comprehension int_of_first ((λ key, [text_to_py key]) <$> ks) = Returns l ->
  NoDup l.
Proof.
  revert l. induction ks as [|k ks IH]; intros l Hall Hnd; csimpl.
  - intros [= <-]. constructor.
  - apply Forall_cons in Hall as [[h0 ->] Hall]. apply NoDup_cons in Hnd as [Hk Hnd].
    destruct (comprehension_hours ks Hall) as (l0 & E & Hl0). rewrite E.
    cbn [text_to_py]. rewrite int_of_first_zfill. intros [= <-]. constructor.
    + intros Hin. apply Hl0 in Hin as (h & Eh & Hin). apply Nat2Z.inj in Eh. by subst.
    + by apply IH.
Qed.

Lemma count_groups {A : Type} `{!EqDecision A} (n : nat) (ks hours : list A) :
  NoDup ks ->
  (∀ k, k ∈ ks → (n ≤ length (filter (λ h, h = k) hours))%nat) ->
  (n * length ks ≤ length hours)%nat.
Proof.
  revert hours. induction ks as [|k ks IH]; intros hours Hnd Hc; simpl; [lia|].
  apply NoDup_cons in Hnd as [Hk Hnd].
  pose proof (Permutation_length (filter_app_complement (λ h, h = k) hours)) as Hlen.
  rewrite length_app in Hlen.
  assert (Hrest : (n * length ks ≤ length (filter (λ h, ¬ h = k) hours))%nat).
  { apply IH; [done|]. intros k' Hk'. rewrite list_filter_filter.
    rewrite (list_filter_iff _ (λ h, h = k')).
    - apply Hc. by apply list_elem_of_further.
    - intros h. split; [by intros [? _]|]. intros ->. split; [done|]. by intros ->. }
  pose proof (Hc k (list_elem_of_here _ _)). lia.
Qed.

(** X11: when device 21 has no reading on the day, or the room has no
    measured humidity sensor, no hour is returned: the answer is the empty
    list, not an exception. *)
Theorem humid_hours_empty_without_comparison (p : SmartHousePersistence)
    (room_name : string) (day : date) :
  plain_text room_name = true ->
  (∀ m, m ∈ measurements (tables p) → m_device m = 21%Z → ¬ on_day day m) ∨
  (∀ j, j ∈ join (tables p) → r_name (j_r j) = room_name →
        d_type (j_d j) ≠ "Fuktighetssensor") ->
  (get_hours_when_humidity_above_average room_name day p).1 = Returns [].
Proof.
  intros Hs Hcase. rewrite (get_hours_when_humidity_above_average_run _ _ _ Hs). simpl.
  destruct (humid_hours_member (tables p) room_name day) as (l & -> & Hl).
  destruct l as [|z l]; [done|]. exfalso.
  destruct (proj1 (Hl z) (list_elem_of_here _ _)) as (h & _ & Hc).
  destruct (qualifying (tables p) room_name day (select_day_average (tables p) day) h)
    as [|j js] eqn:Eq; [simpl in Hc; lia|].
  assert (Hj : j ∈ qualifying (tables p) room_name day (select_day_average (tables p) day) h)
    by (rewrite Eq; apply list_elem_of_here).
  apply list_elem_of_filter in Hj as [(Hn & Hty & _ & Hgt & _) Hj].
  destruct Hcase as [Hno | Hno]; [|by apply (Hno j Hj)].
  unfold select_day_average, comparison_device in Hgt.
  rewrite filter_none in Hgt; [done|]. intros m Hm [Hd Hday]. by apply (Hno m).
Qed.

(** X12: every hour is returned once. *)
Theorem humid_hours_distinct (p : SmartHousePersistence) (room_name : string) (day : date)
    (l : list Z) :
  plain_text room_name = true ->
  (get_hours_when_humidity_above_average room_name day p).1 = Returns l ->
  NoDup l.
Proof.
  intros Hs. rewrite (get_hours_when_humidity_above_average_run _ _ _ Hs). simpl.
  unfold select_humid_hours. destruct (humid_groups (tables p) room_name day) as [Hnd Hall].
  by apply comprehension_hours_NoDup.
Qed.

(** X13: each returned hour stands for at least four rows that pass the
    WHERE clause: four times the number of hours is at most the number of
    such rows. *)
Theorem humid_hours_account_for_rows (p : SmartHousePersistence) (room_name : string)
    (day : date) (l : list Z) :
  plain_text room_name = true ->
  (get_hours_when_humidity_above_average room_name day p).1 = Returns l ->
  (4 * length l ≤ length (filter (humid_row (tables p) room_name day) (join (tables p))))%nat.
Proof.
  intros Hs. rewrite (get_hours_when_humidity_above_average_run _ _ _ Hs). cbn [fst].
  unfold select_humid_hours. destruct (humid_groups (tables p) room_name day) as [Hnd _].
  intros E. apply comprehension_length in E. rewrite E, length_fmap.
  rewrite <- (length_fmap (λ j, sql_hours (m_time_stamp (j_m j)))
                (filter (humid_row (tables p) room_name day) (join (tables p)))).
  apply count_groups; [done|]. intros k Hk. apply list_elem_of_filter in Hk as [Hc _]. lia.
Qed.


(** ** The table check *)

Lemma for_names_texts (cs : list SchemaRow) (acc : gset string) :
  ∃ result, for_names ((λ c, [PStr (s_name c)]) <$> cs) acc = Returns result ∧
    ∀ name, name ∈ result ↔ name ∈ acc ∨ ∃ c, c ∈ cs ∧ s_name c = name.
Proof.
  revert acc. induction cs as [|c cs IH]; intros acc; csimpl.
  - exists acc. split; [done|]. intros name. split; [by left|].
    intros [? | (c & Hc & _)]; [done|]. by apply elem_of_nil in Hc.
  - destruct (IH ({[ s_name c ]} ∪ acc)) as (result & -> & Hr). exists result.
    split; [done|]. intros name. rewrite Hr, elem_of_union, elem_of_singleton. split.
    + intros [[-> | Hacc] | (c' & Hc' & E)].
      * right. exists c. split; [apply list_elem_of_here | done].
      * by left.
      * right. exists c'. split; [by apply list_elem_of_further | done].
    + intros [Hacc | (c' & Hc' & E)]; [by left; right|].
      apply elem_of_cons in Hc' as [-> | Hc']; [by left; left|]. right. by exists c'.
Qed.

(** X15: the table check answers True exactly when the catalog holds an
    entry of type table for each of the names rooms, devices and
    measurements; entries of another type and further tables do not
    matter.  It raises nothing, leaves the tables as they are and no row
    pending. *)
Theorem check_tables_finds_the_three_tables (schema : list SchemaRow)
    (p : SmartHousePersistence) :
  ∃ b : bool,
    check_tables schema p = (Returns b, {| tables := tables p; cursor := [] |}) ∧
    (b = true ↔
     ∀ name, name ∈ ["rooms"; "devices"; "measurements"] →
             ∃ c, c ∈ schema ∧ s_type c = "table" ∧ s_name c = name).
Proof.
  unfold check_tables, bind, execute_table_names, fetchall, lift, ret. simpl.
  unfold select_table_names.
  destruct (for_names_texts (filter (λ c, s_type c = "table") schema) ∅)
    as (result & -> & Hr).
  eexists. split; [reflexivity|].
  assert (Hin : ∀ name, name ∈ result ↔
                        ∃ c, c ∈ schema ∧ s_type c = "table" ∧ s_name c = name).
  { intros name. rewrite Hr. split.
    - intros [Hacc | (c & Hc & E)]; [by apply not_elem_of_empty in Hacc|].
      apply list_elem_of_filter in Hc as [Ht Hc]. by exists c.
    - intros (c & Hc & Ht & E). right. exists c. split; [|done].
      by apply list_elem_of_filter. }
  rewrite !andb_true_iff, !bool_decide_eq_true, !Hin. split.
  - intros [[H1 H2] H3] name Hname. rewrite !elem_of_cons in Hname.
    destruct Hname as [-> | [-> | [-> | Hname]]]; try done. by apply elem_of_nil in Hname.
  - intros Hall. repeat split; apply Hall; rewrite !elem_of_cons; auto.
Qed.

End Analytics.

(** * The theorems at work on the example stores *)

Example house_most_recent :
  (get_most_recent_sensor_reading iso_time refuse_altered kitchen_sensor house).1
  = Returns (PFloat 22).
Proof. vm_compute. reflexivity. Qed.

(** The stored text "2024-01-01T09:00:00" sorts after "2024-01-01 10:00:00"
    as a string, yet the reading of 10:00 is the most recent one. *)
Example house_lexical_order_differs :
  String.ltb "2024-01-01 10:00:00" "2024-01-01T09:00:00" = true ∧
  latest_of iso_time (readings_of (tables house) 1)
    {| m_device := 1; m_value := 22; m_time_stamp := "2024-01-01 10:00:00" |}.
Proof.
  split; [reflexivity|]. split.
  - apply list_elem_of_here.
  - intros m' Hm'. vm_compute in Hm'.
    apply elem_of_cons in Hm' as [-> | Hm']; [by left|].
    apply list_elem_of_singleton in Hm' as ->. right. reflexivity.
Qed.

Example house_readings_at_ten :
  (get_sensor_readings_in_timespan iso_time refuse_altered kitchen_sensor at_ten at_ten house).1
  = Returns [PFloat 22].
Proof. vm_compute. reflexivity. Qed.

(** The row stamped "2024-01-01T09:00:00" lies between 08:00 and 09:30,
    though as a string it sorts after "2024-01-01 09:30:00". *)
Example house_readings_before_half_past_nine :
  String.leb "2024-01-01T09:00:00" (str_datetime half_past_nine) = false ∧
  (get_sensor_readings_in_timespan iso_time refuse_altered kitchen_sensor
     at_eight half_past_nine house).1 = Returns [PFloat 18].
Proof. split; vm_compute; reflexivity. Qed.

Example house_coldest_room :
  (get_coldest_room iso_time refuse_altered house).1 = Returns (PStr "Bathroom").
Proof. vm_compute. reflexivity. Qed.

Example house_summary :
  ∃ dict, (describe_temperature_in_rooms iso_time refuse_altered house).1 = Returns dict ∧
          dict !! "Kitchen" = Some (PFloat 18, PFloat 22, PFloat 20) ∧
          dict !! "Bathroom" = None.
Proof. eexists. split; [vm_compute; reflexivity|]. split; vm_compute; reflexivity. Qed.

Example house_humid_hours :
  (get_hours_when_humidity_above_average iso_time refuse_altered "Bathroom" first_of_january
     house).1 = Returns [10%Z].
Proof. vm_compute. reflexivity. Qed.

Example quoted_room_name_raises :
  (get_hours_when_humidity_above_average iso_time refuse_altered "O'Brien" first_of_january
     house).1 = Raises OperationalError.
Proof. vm_compute. reflexivity. Qed.


Lemma coldest_room_witness :
  no_nan (m_value <$> measurements (tables house)) ∧
  ∃ v, (get_coldest_room iso_time refuse_altered house).1 = Returns v ∧ v ≠ PNone.
Proof.
  assert (Hn : no_nan (m_value <$> measurements (tables house)))
    by (vm_compute; repeat constructor).
  split; [exact Hn|].
  destruct (coldest_room_holds_global_minimum iso_time refuse_altered house Hn)
    as (v & E & Hnone & _).
  exists v. split; [exact E|]. intros Hv. apply Hnone in Hv. vm_compute in Hv. discriminate.
Defined.

Lemma coldest_room_of_empty_table_witness :
  measurements (tables (store_of [])) = [] ∧
  (get_coldest_room iso_time refuse_altered (store_of [])).1 = Returns PNone.
Proof.
  split; [reflexivity|].
  apply (coldest_room_of_empty_table iso_time refuse_altered (store_of [])). reflexivity.
Defined.

Lemma readings_depend_on_db_id_only_witness :
  db_id kitchen_sensor = db_id kitchen_sensor_copy ∧
  kitchen_sensor ≠ kitchen_sensor_copy ∧
  get_most_recent_sensor_reading iso_time refuse_altered kitchen_sensor house
  = get_most_recent_sensor_reading iso_time refuse_altered kitchen_sensor_copy house ∧
  get_sensor_readings_in_timespan iso_time refuse_altered kitchen_sensor at_ten at_ten house
  = get_sensor_readings_in_timespan iso_time refuse_altered kitchen_sensor_copy at_ten at_ten
      house.
Proof.
  split; [reflexivity|]. split; [discriminate|].
  apply (readings_depend_on_db_id_only iso_time refuse_altered
           kitchen_sensor kitchen_sensor_copy house at_ten at_ten).
  reflexivity.
Defined.

(** The summary of [tenths]: least and greatest value are one tenth, the
    binary64 sum of the three tenths divided by three is the next number
    above it. *)
Lemma summary_average_above_max :
  ∃ dict mn mx av,
    (describe_temperature_in_rooms iso_time refuse_altered tenths).1 = Returns dict ∧
    dict !! "Kitchen" = Some (PFloat mn, PFloat mx, PFloat av) ∧
    (mx <? av)%float = true ∧
    ¬ ((mn <=? av)%float = true ∧ (av <=? mx)%float = true).
Proof.
  eexists _, _, _, _. split; [vm_compute; reflexivity|].
  split; [vm_compute; reflexivity|]. split; [vm_compute; reflexivity|].
  vm_compute. intros [_ H]. discriminate.
Qed.

(** The summary of [seven_tenths]: here the quotient falls below the least
    value. *)
Example summary_average_below_min :
  ∃ dict mn mx av,
    (describe_temperature_in_rooms iso_time refuse_altered seven_tenths).1 = Returns dict ∧
    dict !! "Kitchen" = Some (PFloat mn, PFloat mx, PFloat av) ∧
    (av <? mn)%float = true.
Proof.
  eexists _, _, _, _. split; [vm_compute; reflexivity|].
  split; vm_compute; reflexivity.
Qed.

Lemma summary_min_le_max_witness :
  let tenth := 0x1.999999999999ap-4%float in
  let above := 0x1.999999999999bp-4%float in
  let dict : gmap string (pyval * pyval * pyval) :=
    <["Kitchen" := (PFloat tenth, PFloat tenth, PFloat above)]> ∅ in
  no_nan (m_value <$> measurements (tables tenths)) ∧
  (describe_temperature_in_rooms iso_time refuse_altered tenths).1 = Returns dict ∧
  dict !! "Kitchen" = Some (PFloat tenth, PFloat tenth, PFloat above) ∧
  ∃ lo hi, PFloat tenth = PFloat lo ∧ PFloat tenth = PFloat hi ∧ (lo <=? hi)%float = true ∧
           PFloat above = to_py (sql_avg (temperature_values (tables tenths) "Kitchen")).
Proof.
  intros tenth above dict.
  assert (Hn : no_nan (m_value <$> measurements (tables tenths)))
    by (vm_compute; repeat constructor).
  assert (E : (describe_temperature_in_rooms iso_time refuse_altered tenths).1 = Returns dict)
    by (vm_compute; reflexivity).
  assert (Ek : dict !! "Kitchen" = Some (PFloat tenth, PFloat tenth, PFloat above))
    by (vm_compute; reflexivity).
  split; [exact Hn|]. split; [exact E|]. split; [exact Ek|].
  exact (summary_min_le_max iso_time refuse_altered tenths dict "Kitchen"
           (PFloat tenth) (PFloat tenth) (PFloat above) Hn E Ek).
Defined.

(** ** The further properties on the example stores *)

Lemma outcome_depends_on_tables_only_witness :
  tables house_mid_fetch = tables house ∧
  (get_coldest_room iso_time refuse_altered house_mid_fetch).1
  = (get_coldest_room iso_time refuse_altered house).1.
Proof.
  split; [reflexivity|].
  apply (outcome_depends_on_tables_only iso_time refuse_altered house_mid_fetch house
           kitchen_sensor at_ten at_ten "Bathroom" first_of_january).
  reflexivity.
Defined.

Lemma timespan_readings_widen_witness :
  sql_le (sql_datetime iso_time (str_datetime at_eight))
         (sql_datetime iso_time (str_datetime at_ten)) = true ∧
  sql_le (sql_datetime iso_time (str_datetime at_ten))
         (sql_datetime iso_time (str_datetime at_ten)) = true ∧
  [PFloat 22] `sublist_of` [PFloat 22; PFloat 18].
Proof.
  split; [reflexivity|]. split; [reflexivity|].
  apply (timespan_readings_widen iso_time refuse_altered house kitchen_sensor
           at_ten at_ten at_eight at_ten); reflexivity.
Defined.



Lemma readings_ignore_other_devices_witness :
  m_device damp_reading ≠ db_id kitchen_sensor ∧
  (get_most_recent_sensor_reading iso_time refuse_altered kitchen_sensor
     (house_with damp_reading)).1
  = (get_most_recent_sensor_reading iso_time refuse_altered kitchen_sensor house).1 ∧
  (get_sensor_readings_in_timespan iso_time refuse_altered kitchen_sensor at_eight at_ten
     (house_with damp_reading)).1
  = (get_sensor_readings_in_timespan iso_time refuse_altered kitchen_sensor at_eight at_ten
       house).1.
Proof.
  split; [discriminate|].
  apply (readings_ignore_other_devices iso_time refuse_altered house (house_with damp_reading)
           kitchen_sensor at_eight at_ten [] (measurements (tables house)) damp_reading);
    [discriminate | reflexivity | reflexivity].
Defined.

Lemma unplaced_measurement_not_seen_witness :
  (∀ d r, d ∈ devices (tables house) → r ∈ rooms (tables house) →
          d_id d = m_device stray_reading → d_room d ≠ Some (r_id r)) ∧
  (get_coldest_room iso_time refuse_altered (house_with stray_reading)).1
  = (get_coldest_room iso_time refuse_altered house).1 ∧
  (describe_temperature_in_rooms iso_time refuse_altered (house_with stray_reading)).1
  = (describe_temperature_in_rooms iso_time refuse_altered house).1.
Proof.
  assert (Hun : ∀ d r, d ∈ devices (tables house) → r ∈ rooms (tables house) →
                       d_id d = m_device stray_reading → d_room d ≠ Some (r_id r)).
  { intros d r Hd _ Hid. simpl in Hd. rewrite !elem_of_cons in Hd.
    destruct Hd as [-> | [-> | [-> | [-> | Hd]]]]; try discriminate.
    by apply elem_of_nil in Hd. }
  split; [exact Hun|].
  destruct (unplaced_measurement_not_seen iso_time refuse_altered house
              (house_with stray_reading) [] (measurements (tables house)) stray_reading
              Hun eq_refl eq_refl eq_refl eq_refl) as (Hc & Hs & _).
  by split.
Defined.

Lemma summary_ignores_other_sensors_witness :
  (∀ d, d ∈ devices (tables house) → d_id d = m_device damp_reading →
        d_type d ≠ "Temperatursensor") ∧
  (describe_temperature_in_rooms iso_time refuse_altered (house_with damp_reading)).1
  = (describe_temperature_in_rooms iso_time refuse_altered house).1.
Proof.
  assert (Hty : ∀ d, d ∈ devices (tables house) → d_id d = m_device damp_reading →
                     d_type d ≠ "Temperatursensor").
  { intros d Hd Hid. simpl in Hd. rewrite !elem_of_cons in Hd.
    destruct Hd as [-> | [-> | [-> | [-> | Hd]]]]; try discriminate.
    by apply elem_of_nil in Hd. }
  split; [exact Hty|].
  exact (summary_ignores_other_sensors iso_time refuse_altered house (house_with damp_reading)
           [] (measurements (tables house)) damp_reading Hty eq_refl eq_refl eq_refl eq_refl).
Defined.

Lemma coldest_room_has_least_summary_minimum_witness :
  let tenth := 0x1.999999999999ap-4%float in
  let above := 0x1.999999999999bp-4%float in
  let dict : gmap string (pyval * pyval * pyval) :=
    <["Kitchen" := (PFloat tenth, PFloat tenth, PFloat above)]> ∅ in
  no_nan (m_value <$> measurements (tables tenths)) ∧
  (∀ j, j ∈ join (tables tenths) → d_type (j_d j) = "Temperatursensor") ∧
  (get_coldest_room iso_time refuse_altered tenths).1 = Returns (PStr "Kitchen") ∧
  (describe_temperature_in_rooms iso_time refuse_altered tenths).1 = Returns dict ∧
  ∃ mn mx av, dict !! "Kitchen" = Some (PFloat mn, mx, av) ∧
    ∀ name' mn' mx' av', dict !! name' = Some (PFloat mn', mx', av') →
                         (mn <=? mn')%float = true.
Proof.
  intros tenth above dict.
  assert (Hn : no_nan (m_value <$> measurements (tables tenths)))
    by (vm_compute; repeat constructor).
  assert (Hall : ∀ j, j ∈ join (tables tenths) → d_type (j_d j) = "Temperatursensor").
  { apply Forall_forall. vm_compute. repeat constructor. }
  assert (Ec : (get_coldest_room iso_time refuse_altered tenths).1 = Returns (PStr "Kitchen"))
    by (vm_compute; reflexivity).
  assert (Ed : (describe_temperature_in_rooms iso_time refuse_altered tenths).1 = Returns dict)
    by (vm_compute; reflexivity).
  split; [exact Hn|]. split; [exact Hall|]. split; [exact Ec|]. split; [exact Ed|].
  exact (coldest_room_has_least_summary_minimum iso_time refuse_altered tenths "Kitchen" dict
           Hn Hall Ec Ed).
Defined.

Lemma humid_hours_empty_without_comparison_witness :
  plain_text "Kitchen" = true ∧
  (∀ m, m ∈ measurements (tables tenths) → m_device m = 21%Z →
        ¬ on_day iso_time first_of_january m) ∧
  (get_hours_when_humidity_above_average iso_time refuse_altered "Kitchen" first_of_january
     tenths).1 = Returns [].
Proof.
  assert (Hno : ∀ m, m ∈ measurements (tables tenths) → m_device m = 21%Z →
                     ¬ on_day iso_time first_of_january m).
  { intros m Hm Hd. simpl in Hm. rewrite !elem_of_cons in Hm.
    destruct Hm as [-> | [-> | [-> | Hm]]]; try discriminate. by apply elem_of_nil in Hm. }
  split; [reflexivity|]. split; [exact Hno|].
  apply (humid_hours_empty_without_comparison iso_time refuse_altered tenths "Kitchen"
           first_of_january eq_refl). by left.
Defined.

Lemma humid_hours_distinct_witness :
  plain_text "Bathroom" = true ∧
  (get_hours_when_humidity_above_average iso_time refuse_altered "Bathroom" first_of_january
     house).1 = Returns [10%Z] ∧
  NoDup [10%Z].
Proof.
  split; [reflexivity|]. split; [reflexivity|].
  apply (humid_hours_distinct iso_time refuse_altered house "Bathroom" first_of_january
           [10%Z]); reflexivity.
Defined.

Lemma humid_hours_account_for_rows_witness :
  plain_text "Bathroom" = true ∧
  (get_hours_when_humidity_above_average iso_time refuse_altered "Bathroom" first_of_january
     house).1 = Returns [10%Z] ∧
  (4 * length [10%Z]
   ≤ length (filter (humid_row iso_time (tables house) "Bathroom" first_of_january)
               (join (tables house))))%nat.
Proof.
  split; [reflexivity|]. split; [reflexivity|].
  apply (humid_hours_account_for_rows iso_time refuse_altered house "Bathroom"
           first_of_january [10%Z]); reflexivity.
Defined.




(** A catalog with the three tables, an index and a further table; and
    one in which [rooms] is a view. *)
Example check_tables_on_catalogs :
  (check_tables [ {| s_type := "table"; s_name := "measurements" |};
                  {| s_type := "index"; s_name := "by_device" |};
                  {| s_type := "table"; s_name := "rooms" |};
                  {| s_type := "table"; s_name := "sqlite_sequence" |};
                  {| s_type := "table"; s_name := "devices" |} ] house).1 = Returns true ∧
  (check_tables [ {| s_type := "table"; s_name := "measurements" |};
                  {| s_type := "view"; s_name := "rooms" |};
                  {| s_type := "table"; s_name := "devices" |} ] house).1 = Returns false ∧
  (check_tables [] house).1 = Returns false.
Proof. repeat split; vm_compute; reflexivity. Qed.
